(** * Lock verifier: [scripts/verify-lock.py] and [scripts/verify_lock.py]

    A shallow embedding of the two lock-verification scripts and of the
    library calls they make (hashlib's SHA-256 object, posixpath's [dirname]
    and [join], [os.path.exists], [open], [print]), followed by the
    properties of the specification that were checked against them.

    Layout: definitions first (library models, the two scripts, the result
    states of the specification, concrete filesystems), then the lemmas. *)

From Stdlib Require Import ZArith NArith Lia List Ascii String.
From Stdlib.Strings Require Import Byte.
From Equations Require Import Equations.
From stdpp Require Import gmap strings list.
Import ListNotations.

Local Open Scope string_scope.
Local Open Scope list_scope.

(* ===================================================================== *)
(** ** hashlib: the SHA-256 object *)
(* ===================================================================== *)

(** [hashlib.sha256()] is modelled as FIPS 180-4 SHA-256 over 32-bit words
    held in [Z], the wrap-around written out.  The object absorbs its input
    one byte at a time: it keeps the eight chaining words, the bytes of the
    block that is not yet full, and the number of bytes seen so far. *)
Module hashlib.

Local Open Scope Z_scope.

Definition wrap32 (x : Z) : Z := x mod 2 ^ 32.
Definition add32 (x y : Z) : Z := wrap32 (x + y).
Definition not32 (x : Z) : Z := Z.lxor x (2 ^ 32 - 1).
Definition rotr (n x : Z) : Z :=
  Z.lor (Z.shiftr x n) (wrap32 (Z.shiftl x (32 - n))).

Definition Ch (x y z : Z) : Z := Z.lxor (Z.land x y) (Z.land (not32 x) z).
Definition Maj (x y z : Z) : Z :=
  Z.lxor (Z.lxor (Z.land x y) (Z.land x z)) (Z.land y z).
Definition bsig0 (x : Z) : Z := Z.lxor (Z.lxor (rotr 2 x) (rotr 13 x)) (rotr 22 x).
Definition bsig1 (x : Z) : Z := Z.lxor (Z.lxor (rotr 6 x) (rotr 11 x)) (rotr 25 x).
Definition ssig0 (x : Z) : Z := Z.lxor (Z.lxor (rotr 7 x) (rotr 18 x)) (Z.shiftr x 3).
Definition ssig1 (x : Z) : Z := Z.lxor (Z.lxor (rotr 17 x) (rotr 19 x)) (Z.shiftr x 10).

(** Round constants: the first 32 bits of the fractional parts of the cube
    roots of the first 64 primes. *)
Definition K : list Z :=
  [ 1116352408; 1899447441; 3049323471; 3921009573;
     961987163; 1508970993; 2453635748; 2870763221;
    3624381080;  310598401;  607225278; 1426881987;
    1925078388; 2162078206; 2614888103; 3248222580;
    3835390401; 4022224774;  264347078;  604807628;
     770255983; 1249150122; 1555081692; 1996064986;
    2554220882; 2821834349; 2952996808; 3210313671;
    3336571891; 3584528711;  113926993;  338241895;
     666307205;  773529912; 1294757372; 1396182291;
    1695183700; 1986661051; 2177026350; 2456956037;
    2730485921; 2820302411; 3259730800; 3345764771;
    3516065817; 3600352804; 4094571909;  275423344;
     430227734;  506948616;  659060556;  883997877;
     958139571; 1322822218; 1537002063; 1747873779;
    1955562222; 2024104815; 2227730452; 2361852424;
    2428436474; 2756734187; 3204031479; 3329325298 ].

(** The eight chaining words. *)
Definition regs : Type := (Z * Z * Z * Z * Z * Z * Z * Z)%type.

(** Initial value: square roots of the first eight primes. *)
Definition IV : regs :=
  (1779033703, 3144134277, 1013904242, 2773480762,
   1359893119, 2600822924, 528734635, 1541459225).

Definition byte_val (b : byte) : Z := Z.of_N (Byte.to_N b).

(** Big-endian 32-bit words of a block. *)
Fixpoint words_of (bs : list byte) : list Z :=
  match bs with
  | b0 :: b1 :: b2 :: b3 :: rest =>
      (byte_val b0 * 2 ^ 24 + byte_val b1 * 2 ^ 16 + byte_val b2 * 2 ^ 8 + byte_val b3)
        :: words_of rest
  | _ => []
  end.

(** Message schedule, most recent word first: [rev_w] holds W[t-1], W[t-2], ... *)
Definition next_w (rev_w : list Z) : Z :=
  add32 (add32 (add32 (ssig1 (nth 1 rev_w 0)) (nth 6 rev_w 0))
               (ssig0 (nth 14 rev_w 0)))
        (nth 15 rev_w 0).

Fixpoint extend (n : nat) (rev_w : list Z) : list Z :=
  match n with
  | O => rev_w
  | S n' => extend n' (next_w rev_w :: rev_w)
  end.

Definition schedule (block : list byte) : list Z :=
  List.rev (extend 48 (List.rev (words_of block))).

Definition round (s : regs) (kw : Z * Z) : regs :=
  let '(a, b, c, d, e, f, g, h) := s in
  let t1 := add32 (add32 (add32 (add32 h (bsig1 e)) (Ch e f g)) (fst kw)) (snd kw) in
  let t2 := add32 (bsig0 a) (Maj a b c) in
  (add32 t1 t2, a, b, c, add32 d t1, e, f, g).

Definition compress (s : regs) (block : list byte) : regs :=
  let '(a, b, c, d, e, f, g, h) := s in
  let '(a', b', c', d', e', f', g', h') :=
    fold_left round (combine K (schedule block)) s in
  (add32 a a', add32 b b', add32 c c', add32 d d',
   add32 e e', add32 f f', add32 g g', add32 h h').

(** The hash object. *)
Record sha256_object : Type := mk_sha256 {
  chain : regs;
  pending : list byte;
  nbytes : Z
}.

(** [hashlib.sha256()] with no argument. *)
Definition new : sha256_object :=
  {| chain := IV; pending := []; nbytes := 0 |}.

Definition absorb (o : sha256_object) (b : byte) : sha256_object :=
  let buf := pending o ++ [b] in
  if (length buf =? 64)%nat
  then {| chain := compress (chain o) buf; pending := []; nbytes := nbytes o + 1 |}
  else {| chain := chain o; pending := buf; nbytes := nbytes o + 1 |}.

(** [h.update(data)]. *)
Definition update (o : sha256_object) (data : list byte) : sha256_object :=
  fold_left absorb data o.

(** [hashlib.sha256(data)]: a fresh object fed [data] at once. *)
Definition sha256 (data : list byte) : sha256_object := update new data.

Definition byte_of (z : Z) : byte :=
  match Byte.of_N (Z.to_N (z mod 256)) with
  | Some b => b
  | None => x00
  end.

(** The 64-bit big-endian bit count that closes the padding. *)
Definition be64 (n : Z) : list byte :=
  List.map (fun i => byte_of (Z.shiftr n (8 * i))) [7; 6; 5; 4; 3; 2; 1; 0].

(** Padding for a message of [n] bytes: 0x80, zeros up to 56 mod 64, then
    the bit length modulo 2^64. *)
Definition padding (n : Z) : list byte :=
  x80 :: repeat x00 (Z.to_nat ((55 - n) mod 64)) ++ be64 ((8 * n) mod 2 ^ 64).

Definition finish (o : sha256_object) : regs :=
  chain (update o (padding (nbytes o))).

Definition hexdigits : list ascii :=
  list_ascii_of_string "0123456789abcdef".

Definition hex_digit (n : Z) : ascii := nth (Z.to_nat n) hexdigits "0"%char.

Definition hex_word (w : Z) : list ascii :=
  List.map (fun i => hex_digit (Z.land (Z.shiftr w (4 * i)) 15))
           [7; 6; 5; 4; 3; 2; 1; 0].

Definition hex_regs (s : regs) : list ascii :=
  let '(a, b, c, d, e, f, g, h) := s in
  hex_word a ++ hex_word b ++ hex_word c ++ hex_word d ++
  hex_word e ++ hex_word f ++ hex_word g ++ hex_word h.

(** [h.hexdigest()]: the digest as lowercase hexadecimal text.  The object
    itself is left as it was. *)
Definition hexdigest (o : sha256_object) : string :=
  string_of_list_ascii (hex_regs (finish o)).

End hashlib.

(** The hash function as FIPS 180-4 states it, in one piece: the message is
    padded, parsed into 512-bit blocks (5.2.1), and every block is
    compressed into the hash value in turn (6.2.2).  The object above is
    compared with it below. *)
Module FIPS180.

Equations? blocks (bs : list byte) : list (list byte) by wf (length bs) lt :=
  blocks [] := [];
  blocks (b :: rest) := firstn 64 (b :: rest) :: blocks (skipn 64 (b :: rest)).
Proof. cbn. pose proof (length_skipn 63 rest). lia. Qed.

Definition SHA256 (msg : list byte) : hashlib.regs :=
  fold_left hashlib.compress
            (blocks (msg ++ hashlib.padding (Z.of_nat (length msg))))
            hashlib.IV.

End FIPS180.

(* ===================================================================== *)
(** ** Python strings and posixpath *)
(* ===================================================================== *)

(** The [str] methods that [posixpath.dirname] and [posixpath.join] use. *)
Module pystr.

Local Open Scope Z_scope.

(** [s.rfind(c)]: index of the last occurrence of [c], [-1] when absent. *)
Fixpoint rfind (c : ascii) (s : string) : Z :=
  match s with
  | EmptyString => -1
  | String x r =>
      let i := rfind c r in
      if 0 <=? i then i + 1 else if Ascii.eqb x c then 0 else -1
  end.

(** [s[:i]] for [0 <= i]. *)
Fixpoint take (i : nat) (s : string) : string :=
  match i, s with
  | S i', String x r => String x (take i' r)
  | _, _ => EmptyString
  end.

(** [s.rstrip(c)]. *)
Fixpoint rstrip (c : ascii) (s : string) : string :=
  match s with
  | EmptyString => EmptyString
  | String x r =>
      match rstrip c r with
      | EmptyString => if Ascii.eqb x c then EmptyString else String x EmptyString
      | r' => String x r'
      end
  end.

(** [c * n]. *)
Fixpoint mul (c : ascii) (n : nat) : string :=
  match n with
  | O => EmptyString
  | S n' => String c (mul c n')
  end.

(** [s.startswith(c)] and [s.endswith(c)] for a one-character [c]. *)
Definition startswith (c : ascii) (s : string) : bool :=
  match s with
  | String x _ => Ascii.eqb x c
  | EmptyString => false
  end.

Fixpoint endswith (c : ascii) (s : string) : bool :=
  match s with
  | EmptyString => false
  | String x EmptyString => Ascii.eqb x c
  | String _ r => endswith c r
  end.

(** Truth value of a string: [bool(s)]. *)
Definition truthy (s : string) : bool :=
  match s with
  | EmptyString => false
  | String _ _ => true
  end.

End pystr.

(** [os.path] on POSIX. *)
Module os_path.

Definition sep : ascii := "/"%char.

(** [posixpath.dirname]:
<<
    i = p.rfind(sep) + 1
    head = p[:i]
    if head and head != sep*len(head):
        head = head.rstrip(sep)
    return head
>> *)
Definition dirname (p : string) : string :=
  let i := (pystr.rfind sep p + 1)%Z in
  let head := pystr.take (Z.to_nat i) p in
  if pystr.truthy head && negb (String.eqb head (pystr.mul sep (String.length head)))
  then pystr.rstrip sep head
  else head.

(** One iteration of the loop of [posixpath.join]. *)
Definition join_step (path b : string) : string :=
  if pystr.startswith sep b then b
  else if negb (pystr.truthy path) || pystr.endswith sep path then path +:+ b
  else path +:+ String sep b.

(** [posixpath.join(a, *p)]. *)
Definition join (a : string) (p : list string) : string :=
  fold_left join_step p a.

(** How the operating system resolves the path of a system call: an
    absolute path is taken as it is, a relative one is looked up from the
    current working directory of the process. *)
Definition resolve (cwd p : string) : string :=
  if pystr.startswith sep p then p else cwd +:+ String sep p.

End os_path.

(* ===================================================================== *)
(** ** The process and its environment *)
(* ===================================================================== *)

(** What a path names.  [Unopenable] stands for anything that
    [os.path.exists] reports as present but [open(p, 'rb')] refuses with an
    [OSError]: a directory, or a file without read permission. *)
Inductive node : Type :=
| File (content : list byte)
| Unopenable.

(** The environment of one run: the working directory the script was started
    from, the filesystem (keyed by absolute path) that each successive
    system call observes, and whether the encoding of [sys.stdout] has the
    characters beyond ASCII: UTF-8 has them all; cp1252, latin-1 and ascii
    lack U+2011, the one such character the scripts print.  A filesystem
    nobody else writes to is a constant function. *)
Record env : Type := mk_env {
  cwd : string;
  fs_at : nat -> gmap string node;
  stdout_wide : bool
}.

(** A filesystem that stays as it is, and a UTF-8 stdout. *)
Definition steady (dir : string) (fs : gmap string node) : env :=
  {| cwd := dir; fs_at := fun _ => fs; stdout_wide := true |}.

(** The same environment with another encoding of stdout. *)
Definition on_stdout (wide : bool) (E : env) : env :=
  {| cwd := cwd E; fs_at := fs_at E; stdout_wide := wide |}.

Inductive exn : Type :=
| FileNotFoundError (p : string)
| OSError (p : string)
| KeyError (k : string)
| UnicodeEncodeError (line : string)
| SystemExit (code : Z).

(** The state of the process: how many system calls it has made and what it
    has printed, one element per [print] call. *)
Record process : Type := mk_process {
  clock : nat;
  stdout : list string
}.

Definition start (t0 : nat) : process := {| clock := t0; stdout := [] |}.

Inductive outcome (A : Type) : Type :=
| Return (a : A)
| Raise (e : exn).
Arguments Return {A} a.
Arguments Raise {A} e.

Definition IO (A : Type) : Type := env -> process -> outcome A * process.

Definition ret {A : Type} (a : A) : IO A := fun _ s => (Return a, s).

Definition raise {A : Type} (e : exn) : IO A := fun _ s => (Raise e, s).

Definition bind {A B : Type} (m : IO A) (k : A -> IO B) : IO B :=
  fun E s =>
    match m E s with
    | (Return a, s') => k a E s'
    | (Raise e, s') => (Raise e, s')
    end.

Declare Scope io_scope.
Delimit Scope io_scope with io.
Notation "x <- m ;; k" := (bind m (fun x => k))
  (at level 100, m at next level, right associativity) : io_scope.
Notation "m ;;; k" := (bind m (fun _ => k))
  (at level 100, right associativity) : io_scope.
Local Open Scope io_scope.

(** [for x in xs: acc = body(acc, x)]. *)
Fixpoint for_each {A S : Type} (xs : list A) (body : S -> A -> IO S) (acc : S) : IO S :=
  match xs with
  | [] => ret acc
  | x :: rest => acc' <- body acc x ;; for_each rest body acc'
  end.

Definition tick (s : process) : process :=
  {| clock := S (clock s); stdout := stdout s |}.

(** [print(line)] for a line of characters that every encoding of stdout
    has: the ASCII literals of the two scripts with the registry names and
    the digests they show. *)
Definition print (line : string) : IO unit :=
  fun _ s => (Return tt, {| clock := clock s; stdout := stdout s ++ [line] |}).

(** [print(line)] for a line that holds a character beyond ASCII.  The
    scripts have one such literal, the failure banner of verify-lock.py with
    its NON-BREAKING HYPHEN (U+2011).  [sys.stdout] encodes the whole line
    before it writes: when its encoding lacks the character, nothing is
    written and [UnicodeEncodeError] is raised. *)
Definition print_wide (line : string) : IO unit :=
  fun E s =>
    if stdout_wide E then print line E s
    else (Raise (UnicodeEncodeError line), s).

(** [os.path.exists(p)]: one [stat] call. *)
Definition exists_ (p : string) : IO bool :=
  fun E s =>
    (Return match fs_at E (clock s) !! os_path.resolve (cwd E) p with
            | Some _ => true
            | None => false
            end,
     tick s).

(** An open binary file: the bytes not yet read. *)
Record file : Type := mk_file { unread : list byte }.

(** [open(p, 'rb')]: one [open] call.  The handle holds the content the
    file had at that moment and the reads that follow take from it: they
    are not system calls of their own here, which is how a file behaves
    that nobody writes to while it is being read. *)
Definition open_rb (p : string) : IO file :=
  fun E s =>
    (match fs_at E (clock s) !! os_path.resolve (cwd E) p with
     | Some (File content) => Return {| unread := content |}
     | Some Unopenable => Raise (OSError p)
     | None => Raise (FileNotFoundError p)
     end,
     tick s).

(** [f.read(n)]: up to [n] bytes, fewer only at end of file. *)
Definition read (n : nat) (f : file) : list byte * file :=
  (firstn n (unread f), {| unread := skipn n (unread f) |}).

(** [f.read()]: everything that is left. *)
Definition read_all (f : file) : list byte * file :=
  (unread f, {| unread := [] |}).

(** [d[k]] on a [dict]. *)
Definition getitem (d : gmap string string) (k : string) : IO string :=
  match d !! k with
  | Some v => ret v
  | None => raise (KeyError k)
  end.

(** [sys.exit(code)]. *)
Definition sys_exit {A : Type} (code : Z) : IO A := raise (SystemExit code).

(** What the shell sees of a finished interpreter: the exit status is the
    code of a [SystemExit], 1 after any other uncaught exception (whose
    traceback goes to stderr), 0 when the script runs off its end. *)
Definition exit_status {A : Type} (r : outcome A) : Z :=
  match r with
  | Return _ => 0
  | Raise (SystemExit code) => code
  | Raise _ => 1
  end.

Record finished : Type := mk_finished {
  printed : list string;
  status : Z;
  stopped_at : nat
}.

(** Run a script in environment [E], its first system call being number [t0]. *)
Definition run (script : IO unit) (E : env) (t0 : nat) : finished :=
  let '(r, s) := script E (start t0) in
  {| printed := stdout s; status := exit_status r; stopped_at := clock s |}.

(* ===================================================================== *)
(** ** scripts/verify-lock.py *)
(* ===================================================================== *)

Module VerifyLock.

(** [ROOT = os.path.dirname(os.path.dirname(__file__))]; [__file__] is the
    path under which the interpreter loaded this script. *)
Definition ROOT (__file__ : string) : string :=
  os_path.dirname (os_path.dirname __file__).

(** The registry.  A [dict] literal with distinct keys, iterated by
    [.items()] in insertion order: an association list. *)
Definition HASHES : list (string * string) :=
  [ ("plugins/field/Source/dsp/EMUAuthenticTables.h",
     "06fbc6e2fd27db087219f0d9f53f9962997f8cb8001490458f6053bc2e46aa86");
    ("plugins/field/Source/dsp/ZPlaneFilter.h",
     "d73839b6852f7f5d8f135b18cea9c8f68c89962e33342b91bdea99607003e821");
    ("plugins/field/Source/dsp/EnvelopeFollower.h",
     "81d97f6fcbe3547cf319a47205c7ab560c5691c55d8654091ac12b0a6318ba07") ].

(** A value together with the equation that says what it is; the loop below
    branches on what a read returned and keeps that fact. *)
Definition inspect {A : Type} (a : A) : {b : A | a = b} := exist _ a eq_refl.

(** The [while True] loop of [sha256_file]:
<<
    b = f.read(8192)
    if not b: break
    h.update(b)
>>
    with the size of a read as a parameter.  Every turn that does not break
    shortens what is left of the file. *)
Equations? read_loop (n : nat) (h : hashlib.sha256_object) (f : file)
  : hashlib.sha256_object by wf (length (unread f)) lt :=
  read_loop n h f with inspect (fst (read n f)) := {
    | exist _ [] _ => h
    | exist _ (b0 :: bs) Hb =>
        read_loop n (hashlib.update h (b0 :: bs)) (snd (read n f)) }.
Proof.
  destruct f as [l]; simpl in *.
  destruct n as [|n]; [discriminate Hb|].
  destruct l as [|x l]; [discriminate Hb|].
  simpl. pose proof (length_skipn n l). lia.
Qed.

Definition chunk : nat := N.to_nat 8192.

Definition sha256_file (p : string) : IO string :=
  let h := hashlib.new in
  f <- open_rb p ;;
  let h := read_loop chunk h f in
  ret (hashlib.hexdigest h).

(** The body of the [for rel, expected in HASHES.items()] loop; it returns
    the new value of [ok]. *)
Definition check (root : string) (ok : bool) (item : string * string) : IO bool :=
  let '(rel, expected) := item in
  let p := os_path.join root [rel] in
  present <- exists_ p ;;
  if negb present then
    (print ("[LOCK] Missing locked file: " +:+ rel) ;;;
     ret false)
  else
    (h <- sha256_file p ;;
     if negb (String.eqb h expected) then
       (print ("[LOCK] Hash mismatch for " +:+ rel) ;;;
        print ("       expected: " +:+ expected) ;;;
        print ("       got     : " +:+ h) ;;;
        ret false)
     else ret ok).

Definition newline : string := String (ascii_of_nat 10) EmptyString.

(** The banner starts with a line feed; the hyphen of its last word is
    U+2011, written here as the three bytes of its UTF-8 form. *)
Definition failure_banner : string :=
  newline +:+ "LOCK FAILED: DSP files modified. Revert changes or update hashes after re‑validation.".

(** [main], with the two module globals it reads as arguments. *)
Definition main_from (root : string) (hashes : list (string * string)) : IO Z :=
  ok <- for_each hashes (check root) true ;;
  if negb ok then
    (print_wide failure_banner ;;;
     ret 2%Z)
  else
    (print "LOCK OK" ;;;
     ret 0%Z).

Definition main (__file__ : string) : IO Z :=
  main_from (ROOT __file__) HASHES.

(** [if __name__ == "__main__": raise SystemExit(main())]. *)
Definition script_from (root : string) (hashes : list (string * string)) : IO unit :=
  code <- main_from root hashes ;;
  raise (SystemExit code).

Definition script (__file__ : string) : IO unit :=
  script_from (ROOT __file__) HASHES.

End VerifyLock.

(* ===================================================================== *)
(** ** scripts/verify_lock.py *)
(* ===================================================================== *)

Module DspLock.

Definition ROOT (__file__ : string) : string :=
  os_path.dirname (os_path.dirname __file__).

Definition Z (__file__ : string) : string :=
  os_path.join (ROOT __file__) ["plugins"; "EngineField"; "Source"; "dsp"; "ZPlaneFilter.h"].

Definition T (__file__ : string) : string :=
  os_path.join (ROOT __file__) ["plugins"; "EngineField"; "Source"; "dsp"; "EMUAuthenticTables.h"].

Definition EXP : gmap string string :=
  <["ZPlaneFilter.h" := "dbfe0b15ba73ab1a44a698e31617fecb0a71cb622dc10c7770994f55e3554f33"]>
  (<["EMUAuthenticTables.h" := "b3bd58a897b16065c12faa3e2b966f0ac9a28581231ece2be599e19d14cf3756"]> ∅).

(** [def sha(p): return hashlib.sha256(open(p,"rb").read()).hexdigest()] *)
Definition sha (p : string) : IO string :=
  f <- open_rb p ;;
  ret (hashlib.hexdigest (hashlib.sha256 (fst (read_all f)))).

(** One of the two lines
    [if sha(P) != EXP[name]: bad.append((name, sha(P)))];
    it returns the new value of [bad]. *)
Definition check (exp : gmap string string) (bad : list (string * string))
    (name path : string) : IO (list (string * string)) :=
  compared <- sha path ;;
  expected <- getitem exp name ;;
  if negb (String.eqb compared expected) then
    (shown <- sha path ;;
     ret (bad ++ [(name, shown)]))
  else ret bad.

(** One turn of [for name,h in bad: print(...)]. *)
Definition report (exp : gmap string string) (_ : unit) (item : string * string) : IO unit :=
  let '(name, h) := item in
  expected <- getitem exp name ;;
  print ("  - " +:+ name +:+ ": " +:+ h +:+ " (expected " +:+ expected +:+ ")").

(** The module body, with the globals [Z], [T] and [EXP] as arguments. *)
Definition script_from (z t : string) (exp : gmap string string) : IO unit :=
  let bad := [] in
  bad <- check exp bad "ZPlaneFilter.h" z ;;
  bad <- check exp bad "EMUAuthenticTables.h" t ;;
  (match bad with
   | _ :: _ =>
       print "DSP LOCK VIOLATION:" ;;;
       for_each bad (report exp) tt ;;;
       sys_exit 2%Z
   | [] => ret tt
   end) ;;;
  print "DSP lock OK.".

Definition script (__file__ : string) : IO unit :=
  script_from (Z __file__) (T __file__) EXP.

End DspLock.

(* ===================================================================== *)
(** ** The result states of the specification *)
(* ===================================================================== *)

(** These definitions follow the words of the specification (data model,
    digest engine, verifier); the lemmas below compare the scripts with
    them. *)
Module Spec.

(** "status: one of {Ok, Mismatch(actualDigest), Missing}". *)
Inductive status : Type :=
| Ok
| Mismatch (actualDigest : string)
| Missing.

Definition is_ok (st : status) : bool :=
  match st with
  | Ok => true
  | _ => false
  end.

(** "produce a deterministic fixed-size digest covering the entire content
    ... encoded as lowercase hexadecimal text". *)
Definition digest (content : list byte) : string :=
  hashlib.hexdigest (hashlib.sha256 content).

(** The value of one hexadecimal digit, in either case. *)
Definition nibble (c : ascii) : option N :=
  let n := N_of_ascii c in
  if (48 <=? n)%N && (n <=? 57)%N then Some (n - 48)%N
  else if (97 <=? n)%N && (n <=? 102)%N then Some (n - 87)%N
  else if (65 <=? n)%N && (n <=? 70)%N then Some (n - 55)%N
  else None.

(** The value a hexadecimal string denotes, digit by digit; [None] when it
    is not hexadecimal. *)
Fixpoint hex_value (s : string) : option (list N) :=
  match s with
  | EmptyString => Some []
  | String c r =>
      match nibble c, hex_value r with
      | Some v, Some vs => Some (v :: vs)
      | _, _ => None
      end
  end.

(** "case-insensitive hex comparison". *)
Definition hex_equal (a b : string) : bool :=
  match hex_value a, hex_value b with
  | Some x, Some y => bool_decide (x = y)
  | _, _ => false
  end.

(** "expectedDigest: string (lowercase hex-encoded hash)". *)
Definition is_hexdigit (c : ascii) : bool :=
  existsb (Ascii.eqb c) hashlib.hexdigits.

Definition lowercase_hex (s : string) : bool :=
  forallb is_hexdigit (list_ascii_of_string s).

Definition well_formed (registry : list (string * string)) : bool :=
  forallb (fun entry => lowercase_hex (snd entry)) registry.

(** The verifier of one entry, on the filesystem as it is: "If the resolved
    path does not exist or is not readable: result status = Missing.
    Otherwise ... if the resulting digest equals expectedDigest
    (case-insensitive hex comparison): status = Ok.  Else: status =
    Mismatch, carrying the actual computed digest". *)
Definition verify (fs : gmap string node) (path expectedDigest : string) : status :=
  match fs !! path with
  | Some (File content) =>
      if hex_equal (digest content) expectedDigest then Ok
      else Mismatch (digest content)
  | Some Unopenable => Missing
  | None => Missing
  end.

End Spec.

(* ===================================================================== *)
(** ** The report of verify-lock.py, entry by entry *)
(* ===================================================================== *)

(** The file that the entry [item] of the registry stands for, for a script
    whose root is [root], started in directory [dir]. *)
Definition path_of (dir root : string) (item : string * string) : string :=
  os_path.resolve dir (os_path.join root [fst item]).

Definition entry_status (dir root : string) (fs : gmap string node)
    (item : string * string) : Spec.status :=
  Spec.verify fs (path_of dir root item) (snd item).

(** The lines of the report that belong to one entry. *)
Definition entry_lines (item : string * string) (st : Spec.status) : list string :=
  match st with
  | Spec.Ok => []
  | Spec.Missing => ["[LOCK] Missing locked file: " +:+ fst item]
  | Spec.Mismatch h =>
      ["[LOCK] Hash mismatch for " +:+ fst item;
       "       expected: " +:+ snd item;
       "       got     : " +:+ h]
  end.

(** The result state the scripts give a path: the verifier above with the
    comparison they make, [h != expected], in place of the case-insensitive
    one. *)
Definition verdict (fs : gmap string node) (path expected : string) : Spec.status :=
  match fs !! path with
  | Some (File content) =>
      if String.eqb (Spec.digest content) expected then Spec.Ok
      else Spec.Mismatch (Spec.digest content)
  | Some Unopenable => Spec.Missing
  | None => Spec.Missing
  end.

Definition entry_verdict (dir root : string) (fs : gmap string node)
    (item : string * string) : Spec.status :=
  verdict fs (path_of dir root item) (snd item).

(** An entry at which [open] raises. *)
Definition faulty (dir root : string) (fs : gmap string node)
    (item : string * string) : bool :=
  match fs !! path_of dir root item with
  | Some Unopenable => true
  | _ => false
  end.

(** The entries in front of the first faulty one. *)
Fixpoint before_fault (dir root : string) (fs : gmap string node)
    (hashes : list (string * string)) : list (string * string) :=
  match hashes with
  | [] => []
  | item :: rest =>
      if faulty dir root fs item then []
      else item :: before_fault dir root fs rest
  end.

(** The system calls one entry costs: one [stat], and one [open] when the
    path is there. *)
Definition cost (fs : gmap string node) (path : string) : nat :=
  match fs !! path with
  | None => 1
  | Some _ => 2
  end.

(** The system calls of the whole loop, which stops at a faulty entry. *)
Fixpoint syscalls (dir root : string) (fs : gmap string node)
    (hashes : list (string * string)) : nat :=
  match hashes with
  | [] => 0
  | item :: rest =>
      cost fs (path_of dir root item) +
      (if faulty dir root fs item then 0 else syscalls dir root fs rest)
  end.

(** The line that closes a run of [main] that reached its end. *)
Definition closing_line (all_passed : bool) : string :=
  if all_passed then "LOCK OK" else VerifyLock.failure_banner.

(** What the end of [main] adds to the report: the closing line, or nothing
    when the failure banner cannot be encoded. *)
Definition closing (wide all_passed : bool) : list string :=
  if all_passed || wide then [closing_line all_passed] else [].

(** The exit status of a run of [main] in which no [open] raised. *)
Definition closing_status (wide all_passed : bool) : Z :=
  if all_passed then 0%Z else if wide then 2%Z else 1%Z.

Definition bytes_of_string (s : string) : list byte :=
  List.map byte_of_ascii (list_ascii_of_string s).

(** All the words of length [n] over an alphabet; used to count digests. *)
Fixpoint words {A : Type} (alphabet : list A) (n : nat) : list (list A) :=
  match n with
  | O => [[]]
  | S n' => flat_map (fun w => List.map (fun a => a :: w) alphabet) (words alphabet n')
  end.

(** An action whose result and output do not depend on how many system
    calls went before it in environment [E]. *)
Definition clock_blind {A : Type} (m : IO A) (E : env) : Prop :=
  forall s1 s2 : process,
    stdout s1 = stdout s2 ->
    fst (m E s1) = fst (m E s2) /\ stdout (snd (m E s1)) = stdout (snd (m E s2)).

(** A path that names a file [open] accepts. *)
Definition readable (fs : gmap string node) (path : string) : bool :=
  match fs !! path with
  | Some (File _) => true
  | _ => false
  end.

(* ===================================================================== *)
(** ** Concrete filesystems *)
(* ===================================================================== *)

Definition script_path : string := "/repo/scripts/verify-lock.py".
Definition dsp_script_path : string := "/repo/scripts/verify_lock.py".

Definition abc : list byte := bytes_of_string "abc".

(** A registry of two entries, the digests of "abc" and of the empty file,
    and a filesystem that matches it. *)
Definition small_registry : list (string * string) :=
  [ ("a.h", "ba7816bf8f01cfea414140de5dae2223b00361a396177a9cb410ff61f20015ad");
    ("b.h", "e3b0c44298fc1c149afbf4c8996fb92427ae41e4649b934ca495991b7852b855") ].

Definition small_fs : gmap string node :=
  <["/r/a.h" := File abc]> (<["/r/b.h" := File []]> ∅).

(** The same two digests as a table for verify_lock.py. *)
Definition small_exp : gmap string string :=
  <["ZPlaneFilter.h" := "ba7816bf8f01cfea414140de5dae2223b00361a396177a9cb410ff61f20015ad"]>
  (<["EMUAuthenticTables.h" := "e3b0c44298fc1c149afbf4c8996fb92427ae41e4649b934ca495991b7852b855"]> ∅).

(** A checkout in which one protected path of verify-lock.py is there but
    cannot be opened (a directory of that name, say) and nothing else is. *)
Definition first_unopenable : gmap string node :=
  {[ "/repo/plugins/field/Source/dsp/EMUAuthenticTables.h" := Unopenable ]}.

Definition second_unopenable : gmap string node :=
  {[ "/repo/plugins/field/Source/dsp/ZPlaneFilter.h" := Unopenable ]}.

(** A filesystem in which [path] is rewritten, by somebody else, right after
    the first system call of the script. *)
Definition rewritten (path : string) (before after : list byte) : nat -> gmap string node :=
  fun t =>
    match t with
    | O => {[ path := File before ]}
    | S _ => {[ path := File after ]}
    end.

(** The two files of verify_lock.py: the name under which [EXP] holds the
    expected digest, and the path that is hashed. *)
Definition dsp_entries (__file__ : string) : list (string * string) :=
  [ ("ZPlaneFilter.h", DspLock.Z __file__);
    ("EMUAuthenticTables.h", DspLock.T __file__) ].

(* ===================================================================== *)
(** ** Further definitions for the properties beyond the claims *)
(* ===================================================================== *)

(** A filesystem in which [path] is removed, by somebody else, right after
    the first system call of the script. *)
Definition removed (path : string) (content : list byte) : nat -> gmap string node :=
  fun t =>
    match t with
    | O => {[ path := File content ]}
    | S _ => ∅
    end.

(** The line verify_lock.py prints for one element of [bad]. *)
Definition dsp_line (name h expected : string) : string :=
  "  - " +:+ name +:+ ": " +:+ h +:+ " (expected " +:+ expected +:+ ")".

(** The exceptions of [open]. *)
Definition open_error (e : exn) : Prop :=
  match e with
  | FileNotFoundError _ => True
  | OSError _ => True
  | _ => False
  end.
(* ===================================================================== *)
(** * Properties *)
(* ===================================================================== *)

(** ** The digest engine *)

Lemma update_app (h : hashlib.sha256_object) (a b : list byte) :
  hashlib.update h (a ++ b) = hashlib.update (hashlib.update h a) b.
Proof. unfold hashlib.update. apply fold_left_app. Qed.

(** One turn of the read loop. *)
Lemma read_loop_unfold (n : nat) (h : hashlib.sha256_object) (f : file) :
  VerifyLock.read_loop n h f =
  match fst (read n f) with
  | [] => h
  | b :: bs => VerifyLock.read_loop n (hashlib.update h (b :: bs)) (snd (read n f))
  end.
Proof.
  funelim (VerifyLock.read_loop n h f);
    match goal with E : fst (read _ _) = _ |- _ => rewrite E end; reflexivity.
Qed.

(** Reading in chunks of any positive size feeds the object exactly the
    bytes of the file, in order. *)
Lemma read_loop_update (n : nat) (h : hashlib.sha256_object) (f : file) :
  0 < n ->
  VerifyLock.read_loop n h f = hashlib.update h (unread f).
Proof.
  intros Hn. destruct f as [l].
  remember (length l) as len eqn:Hlen.
  revert h l Hlen. induction len as [len IH] using lt_wf_ind. intros h l Hlen.
  rewrite read_loop_unfold. cbn [read fst snd unread].
  destruct (firstn n l) as [|b bs] eqn:Hfirst.
  - destruct l as [|x l]; [reflexivity|].
    destruct n; [lia | discriminate Hfirst].
  - rewrite (IH (length (skipn n l))); [| | reflexivity].
    + rewrite <- update_app, <- Hfirst, firstn_skipn. reflexivity.
    + subst len. rewrite length_skipn.
      destruct l; [destruct n; discriminate Hfirst|]. simpl. lia.
Qed.

(** ** The hash object and FIPS 180-4 *)

Lemma blocks_cons (block rest : list byte) :
  length block = 64 ->
  FIPS180.blocks (block ++ rest) = block :: FIPS180.blocks rest.
Proof.
  intros Hlen. destruct block as [|b block]; [discriminate Hlen|].
  rewrite <- app_comm_cons. simp blocks. rewrite app_comm_cons.
  rewrite firstn_app, skipn_app, Hlen, Nat.sub_diag.
  rewrite firstn_all2 by lia. rewrite skipn_all2 by lia.
  cbn [firstn skipn app]. rewrite app_nil_r. reflexivity.
Qed.

Lemma blocks_concat (bs : list (list byte)) :
  Forall (fun block => length block = 64) bs ->
  FIPS180.blocks (concat bs) = bs.
Proof.
  induction 1 as [|block bs Hlen Hbs IH]; cbn [concat]; [reflexivity|].
  rewrite (blocks_cons _ _ Hlen), IH. reflexivity.
Qed.

Lemma concat_blocks_length (bs : list (list byte)) :
  Forall (fun block => length block = 64) bs ->
  length (concat bs) = 64 * length bs.
Proof.
  induction 1 as [|block bs Hlen Hbs IH]; cbn [concat length]; [lia|].
  rewrite List.length_app, Hlen, IH. lia.
Qed.

(** What the object has done after [update]: the bytes it held and the bytes
    it was given, cut into blocks of 64, have been compressed into the
    chaining words one block after the other, and the incomplete rest is
    kept. *)
Lemma update_blocks (data : list byte) (o : hashlib.sha256_object) :
  length (hashlib.pending o) < 64 ->
  exists (bs : list (list byte)) (rest : list byte),
    hashlib.pending o ++ data = concat bs ++ rest /\
    Forall (fun block => length block = 64) bs /\
    length rest < 64 /\
    hashlib.chain (hashlib.update o data) = fold_left hashlib.compress bs (hashlib.chain o) /\
    hashlib.pending (hashlib.update o data) = rest.
Proof.
  revert o. induction data as [|b data IH]; intros o Hpending.
  - exists [], (hashlib.pending o). rewrite app_nil_r. repeat split; [constructor | exact Hpending].
  - unfold hashlib.update. cbn [fold_left]. fold (hashlib.update (hashlib.absorb o b) data).
    unfold hashlib.absorb at 1 2.
    destruct (Nat.eqb (length (hashlib.pending o ++ [b])) 64) eqn:Hfull.
    + apply Nat.eqb_eq in Hfull.
      destruct (IH {| hashlib.chain := hashlib.compress (hashlib.chain o) (hashlib.pending o ++ [b]);
                      hashlib.pending := [];
                      hashlib.nbytes := (hashlib.nbytes o + 1)%Z |})
        as [bs [rest [Hcut [Hbs [Hrest [Hchain Hkeep]]]]]]; [cbn; lia|].
      cbn [hashlib.pending hashlib.chain app] in Hcut, Hchain.
      exists ((hashlib.pending o ++ [b]) :: bs), rest.
      repeat split; try assumption.
      * cbn [concat]. rewrite <- !app_assoc, <- Hcut. reflexivity.
      * constructor; assumption.
    + apply Nat.eqb_neq in Hfull.
      destruct (IH {| hashlib.chain := hashlib.chain o;
                      hashlib.pending := hashlib.pending o ++ [b];
                      hashlib.nbytes := (hashlib.nbytes o + 1)%Z |})
        as [bs [rest [Hcut [Hbs [Hrest [Hchain Hkeep]]]]]].
      { cbn [hashlib.pending]. rewrite List.length_app in Hfull |- *. cbn [length] in Hfull |- *. lia. }
      cbn [hashlib.pending hashlib.chain] in Hcut, Hchain.
      exists bs, rest. repeat split; try assumption.
      rewrite <- Hcut, <- app_assoc. reflexivity.
Qed.

Lemma update_nbytes (data : list byte) (o : hashlib.sha256_object) :
  hashlib.nbytes (hashlib.update o data) = (hashlib.nbytes o + Z.of_nat (length data))%Z.
Proof.
  revert o. induction data as [|b data IH]; intros o.
  - cbn. lia.
  - unfold hashlib.update. cbn [fold_left]. fold (hashlib.update (hashlib.absorb o b) data).
    rewrite IH. unfold hashlib.absorb.
    destruct (Nat.eqb _ 64); cbn [hashlib.nbytes length]; lia.
Qed.

(** The padded message is a whole number of blocks. *)
Lemma padded_length (msg : list byte) :
  exists k, length (msg ++ hashlib.padding (Z.of_nat (length msg))) = 64 * k.
Proof.
  unfold hashlib.padding. rewrite List.length_app. cbn [length].
  rewrite List.length_app, repeat_length. change (length (hashlib.be64 _)) with 8.
  pose proof (Z.div_mod (55 - Z.of_nat (length msg)) 64 ltac:(lia)) as Hdiv.
  pose proof (Z.mod_pos_bound (55 - Z.of_nat (length msg)) 64 ltac:(lia)) as Hmod.
  exists (Z.to_nat (1 - (55 - Z.of_nat (length msg)) / 64)). lia.
Qed.

(** The digest the object gives for a message is SHA-256 of the message as
    FIPS 180-4 defines it. *)
Lemma sha256_object_fips (msg : list byte) :
  hashlib.finish (hashlib.sha256 msg) = FIPS180.SHA256 msg.
Proof.
  unfold hashlib.finish, hashlib.sha256, FIPS180.SHA256.
  rewrite update_nbytes. cbn [hashlib.new hashlib.nbytes]. rewrite Z.add_0_l.
  rewrite <- update_app.
  destruct (update_blocks (msg ++ hashlib.padding (Z.of_nat (length msg))) hashlib.new)
    as [bs [rest [Hcut [Hbs [Hrest [Hchain _]]]]]]; [cbn; lia|].
  cbn [hashlib.new hashlib.pending hashlib.chain app] in Hcut, Hchain.
  destruct (padded_length msg) as [k Hk].
  assert (Hempty : rest = []).
  { rewrite Hcut, List.length_app, (concat_blocks_length _ Hbs) in Hk.
    destruct rest; [reflexivity|]. cbn [length] in Hk, Hrest. lia. }
  subst rest. rewrite app_nil_r in Hcut.
  rewrite Hchain, Hcut, (blocks_concat _ Hbs). reflexivity.
Qed.

Corollary digest_is_sha256 (content : list byte) :
  Spec.digest content = string_of_list_ascii (hashlib.hex_regs (FIPS180.SHA256 content)).
Proof. unfold Spec.digest, hashlib.hexdigest. rewrite sha256_object_fips. reflexivity. Qed.

(** ** Hexadecimal text *)

Lemma is_hexdigit_cases (c : ascii) :
  Spec.is_hexdigit c = true -> In c hashlib.hexdigits.
Proof.
  unfold Spec.is_hexdigit. rewrite existsb_exists.
  intros [x [Hin Heq]]. apply Ascii.eqb_eq in Heq. subst x. exact Hin.
Qed.

Lemma hex_digit_is_hexdigit (n : Z) : Spec.is_hexdigit (hashlib.hex_digit n) = true.
Proof.
  unfold hashlib.hex_digit.
  destruct (nth_in_or_default (Z.to_nat n) hashlib.hexdigits "0"%char) as [Hin | ->];
    [| reflexivity].
  revert Hin. generalize (nth (Z.to_nat n) hashlib.hexdigits "0"%char). intros c Hin.
  unfold Spec.is_hexdigit. apply existsb_exists. exists c. split; [exact Hin|].
  apply Ascii.eqb_refl.
Qed.

Lemma hex_word_lowercase (w : Z) : forallb Spec.is_hexdigit (hashlib.hex_word w) = true.
Proof.
  unfold hashlib.hex_word. cbn [List.map forallb].
  rewrite !hex_digit_is_hexdigit. reflexivity.
Qed.

Lemma hex_regs_lowercase (r : hashlib.regs) :
  forallb Spec.is_hexdigit (hashlib.hex_regs r) = true.
Proof.
  destruct r as [[[[[[[a b] c] d] e] f] g] h]. unfold hashlib.hex_regs.
  rewrite !forallb_app, !hex_word_lowercase. reflexivity.
Qed.

Lemma hex_regs_length (r : hashlib.regs) : length (hashlib.hex_regs r) = 64%nat.
Proof. destruct r as [[[[[[[a b] c] d] e] f] g] h]. reflexivity. Qed.

(** [hexdigest] returns lowercase hexadecimal text ... *)
Lemma hexdigest_lowercase (o : hashlib.sha256_object) :
  Spec.lowercase_hex (hashlib.hexdigest o) = true.
Proof.
  unfold Spec.lowercase_hex, hashlib.hexdigest.
  rewrite list_ascii_of_string_of_list_ascii. apply hex_regs_lowercase.
Qed.

(** ... of 64 characters. *)
Lemma hexdigest_length (o : hashlib.sha256_object) :
  length (list_ascii_of_string (hashlib.hexdigest o)) = 64%nat.
Proof.
  unfold hashlib.hexdigest.
  rewrite list_ascii_of_string_of_list_ascii. apply hex_regs_length.
Qed.

(** A lowercase digit is determined by its value. *)
Lemma nibble_lowercase_inj (c d : ascii) :
  Spec.is_hexdigit c = true -> Spec.is_hexdigit d = true ->
  Spec.nibble c = Spec.nibble d -> c = d.
Proof.
  intros Hc Hd. apply is_hexdigit_cases in Hc, Hd.
  cbv [hashlib.hexdigits list_ascii_of_string In] in Hc, Hd.
  repeat (destruct Hc as [<- | Hc]); try contradiction;
    repeat (destruct Hd as [<- | Hd]); try contradiction;
    vm_compute; congruence.
Qed.

Lemma nibble_lowercase_some (c : ascii) :
  Spec.is_hexdigit c = true -> exists v, Spec.nibble c = Some v.
Proof.
  intros Hc. apply is_hexdigit_cases in Hc.
  cbv [hashlib.hexdigits list_ascii_of_string In] in Hc.
  repeat (destruct Hc as [<- | Hc]); try contradiction; vm_compute; eauto.
Qed.

Lemma hex_value_lowercase_some (a : string) :
  Spec.lowercase_hex a = true -> exists v, Spec.hex_value a = Some v.
Proof.
  unfold Spec.lowercase_hex. induction a as [|c a IH]; cbn [list_ascii_of_string forallb Spec.hex_value].
  - eauto.
  - intros H. apply andb_prop in H as [Hc Ha].
    destruct (nibble_lowercase_some c Hc) as [v ->].
    destruct (IH Ha) as [vs ->]. eauto.
Qed.

(** On lowercase hexadecimal strings, denoting the same value is being the
    same string. *)
Lemma hex_value_lowercase_inj (a b : string) :
  Spec.lowercase_hex a = true -> Spec.lowercase_hex b = true ->
  Spec.hex_value a = Spec.hex_value b -> a = b.
Proof.
  unfold Spec.lowercase_hex. revert b.
  induction a as [|c a IH]; intros [|d b];
    cbn [list_ascii_of_string forallb Spec.hex_value]; intros Ha Hb Heq.
  - reflexivity.
  - apply andb_prop in Hb as [Hd Hb].
    destruct (nibble_lowercase_some d Hd) as [v Hv]. rewrite Hv in Heq.
    destruct (hex_value_lowercase_some b Hb) as [vs Hvs]. rewrite Hvs in Heq.
    discriminate Heq.
  - apply andb_prop in Ha as [Hc Ha].
    destruct (nibble_lowercase_some c Hc) as [v Hv]. rewrite Hv in Heq.
    destruct (hex_value_lowercase_some a Ha) as [vs Hvs]. rewrite Hvs in Heq.
    discriminate Heq.
  - apply andb_prop in Ha as [Hc Ha]. apply andb_prop in Hb as [Hd Hb].
    destruct (nibble_lowercase_some c Hc) as [v Hv].
    destruct (nibble_lowercase_some d Hd) as [u Hu].
    destruct (hex_value_lowercase_some a Ha) as [vs Hvs].
    destruct (hex_value_lowercase_some b Hb) as [us Hus].
    rewrite Hv, Hu, Hvs, Hus in Heq. injection Heq as Hvu Hrest.
    f_equal.
    + apply nibble_lowercase_inj; congruence.
    + apply IH; congruence.
Qed.

(** So the case-insensitive comparison of the specification and the [!=]
    of the scripts agree whenever both strings are lowercase. *)
Lemma hex_equal_lowercase (a b : string) :
  Spec.lowercase_hex a = true -> Spec.lowercase_hex b = true ->
  Spec.hex_equal a b = String.eqb a b.
Proof.
  intros Ha Hb. unfold Spec.hex_equal.
  destruct (hex_value_lowercase_some a Ha) as [va Hva].
  destruct (hex_value_lowercase_some b Hb) as [vb Hvb].
  rewrite Hva, Hvb.
  destruct (String.eqb a b) eqn:Heq.
  - apply String.eqb_eq in Heq. subst b.
    apply bool_decide_eq_true. congruence.
  - apply bool_decide_eq_false. intros ->.
    apply String.eqb_neq in Heq. apply Heq.
    apply hex_value_lowercase_inj; congruence.
Qed.

(** ** Counting digests *)

Lemma words_length {A : Type} (alphabet : list A) (n : nat) :
  length (words alphabet n) = (length alphabet ^ n)%nat.
Proof.
  induction n as [|n IH]; [reflexivity|].
  cbn [words]. rewrite Nat.pow_succ_r'.
  rewrite <- IH. generalize (words alphabet n). intros ws.
  induction ws as [|w ws IHws]; cbn [flat_map length].
  - rewrite Nat.mul_0_r. reflexivity.
  - rewrite List.length_app, List.length_map, IHws. lia.
Qed.

Lemma words_complete {A : Type} (alphabet : list A) (w : list A) :
  (forall a, In a w -> In a alphabet) -> In w (words alphabet (length w)).
Proof.
  induction w as [|a w IH]; intros Hall; cbn [length words].
  - left. reflexivity.
  - apply in_flat_map. exists w. split.
    + apply IH. intros b Hb. apply Hall. right. exact Hb.
    + apply (in_map (fun b => b :: w)). apply Hall. left. reflexivity.
Qed.

Lemma words_NoDup {A : Type} (alphabet : list A) (n : nat) :
  List.NoDup alphabet -> List.NoDup (words alphabet n).
Proof.
  intros Hal. induction n as [|n IH]; cbn [words].
  - constructor; [intros []|constructor].
  - revert IH. generalize (words alphabet n). intros ws Hws.
    induction Hws as [|w ws Hnotin Hws IHws]; cbn [flat_map]; [constructor|].
    apply List.NoDup_app.
    + apply List.NoDup_map_NoDup_ForallPairs; [|exact Hal].
      intros a b _ _ Hab. congruence.
    + exact IHws.
    + intros x Hx Hx'. apply in_map_iff in Hx as [a [<- _]].
      apply in_flat_map in Hx' as [w' [Hw' Hin]].
      apply in_map_iff in Hin as [b [Heq _]].
      injection Heq as _ ->. contradiction.
Qed.

(** More inputs than outputs: two of the inputs share an output. *)
Lemma pigeonhole_collision {A B : Type} (eqB : forall x y : B, {x = y} + {x <> y})
    (f : A -> B) (inputs : list A) (outputs : list B) :
  List.NoDup inputs ->
  (forall x, In x inputs -> In (f x) outputs) ->
  length outputs < length inputs ->
  exists x y, In x inputs /\ In y inputs /\ x <> y /\ f x = f y.
Proof.
  intros Hnd. revert outputs.
  induction Hnd as [|x l Hx Hnd IH]; intros outputs Hin Hlen; [cbn in Hlen; lia|].
  destruct (in_dec eqB (f x) (List.map f l)) as [Hdup | Hfresh].
  - apply in_map_iff in Hdup as [y [Hy Hyl]].
    exists x, y. repeat split; [left; reflexivity | right; exact Hyl | | congruence].
    intros ->. contradiction.
  - destruct (IH (List.remove eqB (f x) outputs)) as [a [b [Ha [Hb [Hab Hf]]]]].
    + intros y Hy. apply List.in_in_remove.
      * intros Heq. apply Hfresh. rewrite <- Heq. apply in_map. exact Hy.
      * apply Hin. right. exact Hy.
    + assert (Hrem : length (List.remove eqB (f x) outputs) < length outputs).
      { apply List.remove_length_lt. apply Hin. left. reflexivity. }
      cbn [length] in Hlen. lia.
    + exists a, b. repeat split; [right; exact Ha | right; exact Hb | exact Hab | exact Hf].
Qed.

(** SHA-256 maps the 2^257 inputs of 257 bytes drawn from two byte values to
    at most 16^64 = 2^256 hexadecimal strings: some two different contents
    have the same digest. *)
Lemma digest_collision :
  exists c1 c2 : list byte, c1 <> c2 /\ Spec.digest c1 = Spec.digest c2.
Proof.
  destruct (pigeonhole_collision String.string_dec Spec.digest
              (words [x00; x01] 257)
              (List.map string_of_list_ascii (words hashlib.hexdigits 64)))
    as [c1 [c2 [_ [_ [Hne Heq]]]]].
  - apply words_NoDup. repeat constructor; cbn; intuition discriminate.
  - intros c _. unfold Spec.digest, hashlib.hexdigest. apply in_map.
    rewrite <- (hex_regs_length (hashlib.finish (hashlib.sha256 c))).
    apply words_complete. intros a Ha.
    apply is_hexdigit_cases.
    pose proof (hex_regs_lowercase (hashlib.finish (hashlib.sha256 c))) as Hl.
    rewrite forallb_forall in Hl. apply Hl. exact Ha.
  - rewrite List.length_map, !words_length.
    change (length hashlib.hexdigits) with (2 ^ 4)%nat.
    change (length [x00; x01]) with 2%nat.
    rewrite <- Nat.pow_mul_r. change (4 * 64)%nat with 256%nat.
    apply Nat.pow_lt_mono_r; lia.
  - exists c1, c2. split; assumption.
Qed.

(** ** Paths *)


Lemma rfind_lower_bound (c : ascii) (s : string) : (-1 <= pystr.rfind c s)%Z.
Proof.
  induction s as [|x r IH]; cbn [pystr.rfind]; [lia|].
  destruct (0 <=? pystr.rfind c r)%Z eqn:E; [apply Z.leb_le in E; lia|].
  destruct (Ascii.eqb x c); lia.
Qed.







Lemma append_empty (s : string) : EmptyString +:+ s = s.
Proof. reflexivity. Qed.

Lemma append_cons (x : ascii) (a b : string) : String x a +:+ b = String x (a +:+ b).
Proof. reflexivity. Qed.

Lemma rfind_append_sep (c : ascii) (a name : string) :
  pystr.rfind c name = (-1)%Z ->
  pystr.rfind c (a +:+ String c name) = Z.of_nat (String.length a).
Proof.
  intros Hname. induction a as [|x a IH].
  - rewrite append_empty. cbn [String.length pystr.rfind]. rewrite Hname.
    cbn. rewrite Ascii.eqb_refl. reflexivity.
  - rewrite append_cons. cbn [String.length pystr.rfind]. rewrite IH.
    destruct (0 <=? Z.of_nat (String.length a))%Z eqn:E; [lia|].
    apply Z.leb_gt in E. lia.
Qed.

Lemma take_append (a b : string) (c : ascii) :
  pystr.take (S (String.length a)) (a +:+ String c b) = a +:+ String c EmptyString.
Proof.
  induction a as [|x a IH]; rewrite ?append_empty, ?append_cons;
    cbn [String.length pystr.take].
  - destruct b; reflexivity.
  - f_equal. exact IH.
Qed.

Lemma rstrip_identity (c : ascii) (s : string) :
  pystr.endswith c s = false -> pystr.rstrip c s = s.
Proof.
  induction s as [|x r IH]; [reflexivity|].
  cbn [pystr.endswith pystr.rstrip]. destruct r as [|y r'].
  - intros H. cbn [pystr.rstrip]. rewrite H. reflexivity.
  - intros H. rewrite (IH H). reflexivity.
Qed.

Lemma rstrip_append_sep (c : ascii) (s : string) :
  pystr.truthy s = true -> pystr.endswith c s = false ->
  pystr.rstrip c (s +:+ String c EmptyString) = s.
Proof.
  induction s as [|x r IH]; [discriminate|]. intros _ Hend.
  rewrite append_cons. cbn [pystr.rstrip]. destruct r as [|y r'].
  - rewrite append_empty. cbn [pystr.rstrip]. rewrite Ascii.eqb_refl.
    cbn [pystr.endswith] in Hend. rewrite Hend. reflexivity.
  - rewrite IH; [reflexivity | reflexivity | exact Hend].
Qed.

Lemma not_all_sep (c : ascii) (s : string) :
  pystr.truthy s = true -> pystr.endswith c s = false ->
  String.eqb (s +:+ String c EmptyString)
             (pystr.mul c (String.length (s +:+ String c EmptyString))) = false.
Proof.
  induction s as [|x r IH]; [discriminate|]. intros _ Hend.
  apply String.eqb_neq. rewrite append_cons. cbn [String.length pystr.mul].
  destruct r as [|y r'].
  - cbn [pystr.endswith] in Hend. apply Ascii.eqb_neq in Hend.
    intros Heq. apply Hend. congruence.
  - intros Heq.
    specialize (IH eq_refl Hend). apply String.eqb_neq in IH. apply IH.
    rewrite append_cons in Heq |- *. cbn [String.length pystr.mul] in Heq |- *.
    congruence.
Qed.

(** [dirname] undoes one step down into a directory. *)
Lemma dirname_child (dir name : string) :
  pystr.truthy dir = true ->
  pystr.endswith os_path.sep dir = false ->
  pystr.rfind os_path.sep name = (-1)%Z ->
  os_path.dirname (dir +:+ String os_path.sep name) = dir.
Proof.
  intros Hdir Hend Hname. unfold os_path.dirname.
  rewrite (rfind_append_sep _ _ _ Hname).
  replace (Z.to_nat (Z.of_nat (String.length dir) + 1)) with (S (String.length dir)) by lia.
  rewrite take_append.
  rewrite (not_all_sep _ _ Hdir Hend).
  destruct dir as [|x r]; [discriminate|].
  rewrite append_cons at 1. cbn [pystr.truthy andb negb].
  apply rstrip_append_sep; assumption.
Qed.

Lemma endswith_append (c : ascii) (a b : string) :
  pystr.truthy b = true ->
  pystr.endswith c (a +:+ b) = pystr.endswith c b.
Proof.
  intros Hb. induction a as [|x a IH]; [reflexivity|].
  rewrite append_cons. cbn [pystr.endswith]. rewrite IH.
  destruct (a +:+ b) eqn:E; [|reflexivity].
  destruct a; [rewrite append_empty in E; subst b; discriminate
              | rewrite append_cons in E; discriminate].
Qed.

Lemma rfind_absent_endswith (c : ascii) (s : string) :
  pystr.rfind c s = (-1)%Z -> pystr.endswith c s = false.
Proof.
  induction s as [|x r IH]; [reflexivity|]. cbn [pystr.rfind pystr.endswith].
  pose proof (rfind_lower_bound c r) as Hlow.
  destruct (0 <=? pystr.rfind c r)%Z eqn:E; [apply Z.leb_le in E; lia|].
  apply Z.leb_gt in E.
  destruct (Ascii.eqb x c) eqn:Ex; [discriminate|]. intros _.
  destruct r; [reflexivity|]. apply IH. lia.
Qed.

(** The root of both scripts lies two directory levels above the script
    file: for a script [root/d/name] it is [root]. *)
Lemma ROOT_two_levels_up (root d name : string) :
  pystr.truthy root = true ->
  pystr.endswith os_path.sep root = false ->
  pystr.truthy d = true ->
  pystr.rfind os_path.sep d = (-1)%Z ->
  pystr.rfind os_path.sep name = (-1)%Z ->
  VerifyLock.ROOT ((root +:+ String os_path.sep d) +:+ String os_path.sep name) = root.
Proof.
  intros Hroot Hend Hd Hnd Hname. unfold VerifyLock.ROOT.
  rewrite dirname_child; [apply dirname_child; assumption | | | exact Hname].
  - destruct root; [discriminate | reflexivity].
  - rewrite endswith_append by reflexivity.
    cbn [pystr.endswith]. destruct d as [|y d']; [discriminate|].
    apply (rfind_absent_endswith _ _ Hnd).
Qed.

(** ** One system call at a time *)

Lemma chunk_positive : 0 < VerifyLock.chunk.
Proof. unfold VerifyLock.chunk. lia. Qed.

(** What [sha256_file] does, in any environment: one [open], then the digest
    of the content the file has at that moment. *)
Lemma sha256_file_spec (p : string) (E : env) (s : process) :
  VerifyLock.sha256_file p E s =
  (match fs_at E (clock s) !! os_path.resolve (cwd E) p with
   | Some (File content) => Return (Spec.digest content)
   | Some Unopenable => Raise (OSError p)
   | None => Raise (FileNotFoundError p)
   end, tick s).
Proof.
  unfold VerifyLock.sha256_file, bind, open_rb, ret.
  destruct (fs_at E (clock s) !! os_path.resolve (cwd E) p) as [[content|]|];
    try reflexivity.
  rewrite read_loop_update by apply chunk_positive. reflexivity.
Qed.

(** The same for [sha] of verify_lock.py. *)
Lemma sha_spec (p : string) (E : env) (s : process) :
  DspLock.sha p E s =
  (match fs_at E (clock s) !! os_path.resolve (cwd E) p with
   | Some (File content) => Return (Spec.digest content)
   | Some Unopenable => Raise (OSError p)
   | None => Raise (FileNotFoundError p)
   end, tick s).
Proof.
  unfold DspLock.sha, bind, open_rb, ret.
  destruct (fs_at E (clock s) !! os_path.resolve (cwd E) p) as [[content|]|];
    reflexivity.
Qed.

(** Two results that differ only in how the clock is written. *)
Ltac same_process :=
  unfold tick; cbn [clock stdout];
  match goal with
  | |- (?r, ?s1) = (?r, ?s2) => f_equal
  end;
  f_equal; lia.

(** The loop body of [main] on a filesystem that stays as it is. *)
Lemma check_steady (root : string) (ok : bool) (item : string * string)
    (dir : string) (fs : gmap string node) (s : process) :
  VerifyLock.check root ok item (steady dir fs) s =
  if faulty dir root fs item
  then (Raise (OSError (os_path.join root [fst item])),
        {| clock := clock s + 2; stdout := stdout s |})
  else (Return (ok && Spec.is_ok (entry_verdict dir root fs item)),
        {| clock := clock s + cost fs (path_of dir root item);
           stdout := stdout s ++ entry_lines item (entry_verdict dir root fs item) |}).
Proof.
  destruct item as [rel expected]. destruct s as [t out].
  unfold VerifyLock.check, faulty, entry_verdict, verdict, cost, path_of.
  unfold bind at 1. unfold exists_. cbn [steady cwd fs_at clock stdout fst snd tick].
  destruct (fs !! os_path.resolve dir (os_path.join root [rel])) as [[content|]|] eqn:Hfs;
    cbn [negb].
  - unfold bind at 1. rewrite sha256_file_spec.
    cbn [steady cwd fs_at clock stdout tick]. rewrite Hfs.
    destruct (String.eqb (Spec.digest content) expected) eqn:Heq; cbn [negb].
    + unfold ret. cbn [Spec.is_ok entry_lines]. rewrite andb_true_r, app_nil_r.
      same_process.
    + unfold bind, print, ret. cbn [clock stdout Spec.is_ok entry_lines fst snd].
      rewrite andb_false_r, <- !app_assoc. cbn [app].
      same_process.
  - unfold bind at 1. rewrite sha256_file_spec.
    cbn [steady cwd fs_at clock stdout tick]. rewrite Hfs.
    same_process.
  - unfold bind, print, ret. cbn [clock stdout Spec.is_ok entry_lines fst snd].
    rewrite andb_false_r. same_process.
Qed.

(** The whole loop on a filesystem that stays as it is: it runs up to the
    first faulty entry, each entry in front of it adds its own lines to the
    report, and [ok] ends up true exactly when all of them are Ok. *)
Lemma loop_steady (root dir : string) (fs : gmap string node)
    (hashes : list (string * string)) (ok : bool) (s : process) :
  for_each hashes (VerifyLock.check root) ok (steady dir fs) s =
  (match List.find (faulty dir root fs) hashes with
   | Some item => Raise (OSError (os_path.join root [fst item]))
   | None => Return (ok && forallb (fun item => Spec.is_ok (entry_verdict dir root fs item)) hashes)
   end,
   {| clock := clock s + syscalls dir root fs hashes;
      stdout := stdout s ++
                flat_map (fun item => entry_lines item (entry_verdict dir root fs item))
                         (before_fault dir root fs hashes) |}).
Proof.
  revert ok s. induction hashes as [|item rest IH]; intros ok s.
  - destruct s as [t out]. cbn. rewrite andb_true_r, app_nil_r, Nat.add_0_r. reflexivity.
  - cbn [for_each List.find forallb syscalls before_fault].
    unfold bind. rewrite check_steady.
    destruct (faulty dir root fs item) eqn:Hf.
    + cbn [flat_map]. rewrite app_nil_r, Nat.add_0_r.
      unfold cost. unfold faulty in Hf.
      destruct (fs !! path_of dir root item) as [[|]|]; try discriminate Hf.
      reflexivity.
    + rewrite IH. cbn [clock stdout flat_map].
      rewrite andb_assoc, <- app_assoc, Nat.add_assoc. reflexivity.
Qed.

(** The loop body of [main] in any environment: a [stat] at the current
    moment and, when the path is there, an [open] at the next one. *)
Lemma check_anywhere (root : string) (ok : bool) (rel expected : string)
    (E : env) (s : process) :
  VerifyLock.check root ok (rel, expected) E s =
  let p := os_path.join root [rel] in
  match fs_at E (clock s) !! os_path.resolve (cwd E) p with
  | None =>
      (Return false,
       {| clock := S (clock s);
          stdout := stdout s ++ ["[LOCK] Missing locked file: " +:+ rel] |})
  | Some _ =>
      match fs_at E (S (clock s)) !! os_path.resolve (cwd E) p with
      | Some (File content) =>
          if String.eqb (Spec.digest content) expected
          then (Return ok, {| clock := S (S (clock s)); stdout := stdout s |})
          else (Return false,
                {| clock := S (S (clock s));
                   stdout := stdout s ++
                             ["[LOCK] Hash mismatch for " +:+ rel;
                              "       expected: " +:+ expected;
                              "       got     : " +:+ Spec.digest content] |})
      | Some Unopenable => (Raise (OSError p), {| clock := S (S (clock s)); stdout := stdout s |})
      | None => (Raise (FileNotFoundError p), {| clock := S (S (clock s)); stdout := stdout s |})
      end
  end.
Proof.
  cbv zeta. unfold VerifyLock.check. unfold bind at 1. unfold exists_.
  destruct (fs_at E (clock s) !! os_path.resolve (cwd E) (os_path.join root [rel]))
    as [n|]; cbn [negb]; [|reflexivity].
  unfold bind at 1. rewrite sha256_file_spec. cbn [tick clock stdout].
  destruct (fs_at E (S (clock s)) !! os_path.resolve (cwd E) (os_path.join root [rel]))
    as [[content|]|]; try reflexivity.
  destruct (String.eqb (Spec.digest content) expected); cbn [negb]; [reflexivity|].
  unfold bind, print, ret. cbn [clock stdout]. rewrite <- !app_assoc. reflexivity.
Qed.

(** The loop never prints the banner: the encoding of stdout does not matter
    to it. *)
Lemma check_on_stdout (wide : bool) (root : string) (ok : bool) (item : string * string)
    (E : env) (s : process) :
  VerifyLock.check root ok item (on_stdout wide E) s = VerifyLock.check root ok item E s.
Proof. destruct item as [rel expected]. rewrite !check_anywhere. reflexivity. Qed.

Lemma loop_on_stdout (wide : bool) (root : string) (hashes : list (string * string))
    (ok : bool) (E : env) (s : process) :
  for_each hashes (VerifyLock.check root) ok (on_stdout wide E) s =
  for_each hashes (VerifyLock.check root) ok E s.
Proof.
  revert ok s. induction hashes as [|item rest IH]; intros ok s; [reflexivity|].
  cbn [for_each]. unfold bind. rewrite check_on_stdout.
  destruct (VerifyLock.check root ok item E s) as [[ok'|e] s']; [apply IH | reflexivity].
Qed.

(** A whole run of verify-lock.py on a filesystem that stays as it is,
    whatever the encoding of stdout. *)
Lemma run_steady_on (wide : bool) (root dir : string) (fs : gmap string node)
    (hashes : list (string * string)) (t0 : nat) :
  run (VerifyLock.script_from root hashes) (on_stdout wide (steady dir fs)) t0 =
  let all_passed := forallb (fun item => Spec.is_ok (entry_verdict dir root fs item)) hashes in
  let lines := flat_map (fun item => entry_lines item (entry_verdict dir root fs item))
                        (before_fault dir root fs hashes) in
  match List.find (faulty dir root fs) hashes with
  | Some _ =>
      {| printed := lines; status := 1; stopped_at := t0 + syscalls dir root fs hashes |}
  | None =>
      {| printed := lines ++ closing wide all_passed;
         status := closing_status wide all_passed;
         stopped_at := t0 + syscalls dir root fs hashes |}
  end.
Proof.
  unfold run, VerifyLock.script_from, VerifyLock.main_from.
  unfold bind at 1. unfold bind at 1. rewrite loop_on_stdout, loop_steady.
  cbn [start clock stdout app andb].
  destruct (List.find (faulty dir root fs) hashes) as [item|]; [reflexivity|].
  destruct (forallb _ hashes); [reflexivity|].
  destruct wide; [reflexivity|].
  cbn [negb]. unfold bind, print_wide. cbn [on_stdout stdout_wide closing orb].
  rewrite app_nil_r. reflexivity.
Qed.

(** The same with a UTF-8 stdout. *)
Lemma run_steady (root dir : string) (fs : gmap string node)
    (hashes : list (string * string)) (t0 : nat) :
  run (VerifyLock.script_from root hashes) (steady dir fs) t0 =
  let all_passed := forallb (fun item => Spec.is_ok (entry_verdict dir root fs item)) hashes in
  let lines := flat_map (fun item => entry_lines item (entry_verdict dir root fs item))
                        (before_fault dir root fs hashes) in
  match List.find (faulty dir root fs) hashes with
  | Some _ =>
      {| printed := lines; status := 1; stopped_at := t0 + syscalls dir root fs hashes |}
  | None =>
      {| printed := lines ++ [closing_line all_passed];
         status := if all_passed then 0 else 2;
         stopped_at := t0 + syscalls dir root fs hashes |}
  end.
Proof.
  change (steady dir fs) with (on_stdout true (steady dir fs)).
  rewrite run_steady_on. cbv zeta.
  destruct (List.find (faulty dir root fs) hashes) as [item|]; [reflexivity|].
  destruct (forallb _ hashes); reflexivity.
Qed.

(** ** The comparison of the scripts and the comparison of the specification *)

Lemma digest_lowercase (content : list byte) :
  Spec.lowercase_hex (Spec.digest content) = true.
Proof. apply hexdigest_lowercase. Qed.

Lemma verdict_lowercase (fs : gmap string node) (path expected : string) :
  Spec.lowercase_hex expected = true ->
  verdict fs path expected = Spec.verify fs path expected.
Proof.
  intros Hlow. unfold verdict, Spec.verify.
  destruct (fs !! path) as [[content|]|]; try reflexivity.
  rewrite hex_equal_lowercase by (apply digest_lowercase || exact Hlow). reflexivity.
Qed.

Lemma all_passed_well_formed (dir root : string) (fs : gmap string node)
    (hashes : list (string * string)) :
  Spec.well_formed hashes = true ->
  forallb (fun item => Spec.is_ok (entry_verdict dir root fs item)) hashes =
  forallb (fun item => Spec.is_ok (entry_status dir root fs item)) hashes.
Proof.
  unfold Spec.well_formed. induction hashes as [|item rest IH]; [reflexivity|].
  cbn [forallb]. intros H. apply andb_prop in H as [Hitem Hrest].
  unfold entry_verdict at 1, entry_status at 1.
  rewrite (verdict_lowercase _ _ _ Hitem), (IH Hrest). reflexivity.
Qed.

Lemma lines_well_formed (dir root : string) (fs : gmap string node)
    (hashes : list (string * string)) :
  Spec.well_formed hashes = true ->
  flat_map (fun item => entry_lines item (entry_verdict dir root fs item))
           (before_fault dir root fs hashes) =
  flat_map (fun item => entry_lines item (entry_status dir root fs item))
           (before_fault dir root fs hashes).
Proof.
  unfold Spec.well_formed. induction hashes as [|item rest IH]; [reflexivity|].
  cbn [forallb before_fault]. intros H. apply andb_prop in H as [Hitem Hrest].
  destruct (faulty dir root fs item); [reflexivity|].
  cbn [flat_map]. unfold entry_verdict at 1, entry_status at 1.
  rewrite (verdict_lowercase _ _ _ Hitem), (IH Hrest). reflexivity.
Qed.

(** A run of verify-lock.py in the terms of the specification, for a
    registry whose expected digests are lowercase hexadecimal. *)
Lemma run_steady_spec (root dir : string) (fs : gmap string node)
    (hashes : list (string * string)) (t0 : nat) :
  Spec.well_formed hashes = true ->
  run (VerifyLock.script_from root hashes) (steady dir fs) t0 =
  let all_passed := forallb (fun item => Spec.is_ok (entry_status dir root fs item)) hashes in
  let lines := flat_map (fun item => entry_lines item (entry_status dir root fs item))
                        (before_fault dir root fs hashes) in
  match List.find (faulty dir root fs) hashes with
  | Some _ =>
      {| printed := lines; status := 1; stopped_at := t0 + syscalls dir root fs hashes |}
  | None =>
      {| printed := lines ++ [closing_line all_passed];
         status := if all_passed then 0 else 2;
         stopped_at := t0 + syscalls dir root fs hashes |}
  end.
Proof.
  intros Hwf. rewrite run_steady. cbv zeta.
  rewrite (all_passed_well_formed _ _ _ _ Hwf), (lines_well_formed _ _ _ _ Hwf).
  reflexivity.
Qed.



Lemma before_fault_all (dir root : string) (fs : gmap string node)
    (hashes : list (string * string)) :
  List.find (faulty dir root fs) hashes = None ->
  before_fault dir root fs hashes = hashes.
Proof.
  induction hashes as [|item rest IH]; [reflexivity|].
  cbn [List.find before_fault]. destruct (faulty dir root fs item); [discriminate|].
  intros H. rewrite (IH H). reflexivity.
Qed.

(** The registry shipped with verify-lock.py is well formed: for its
    entries the result state of the script is the one of the specification. *)
Lemma shipped_verdicts (__file__ dir : string) (fs : gmap string node) :
  Forall (fun item =>
            entry_verdict dir (VerifyLock.ROOT __file__) fs item =
            entry_status dir (VerifyLock.ROOT __file__) fs item)
         VerifyLock.HASHES.
Proof.
  unfold VerifyLock.HASHES, entry_verdict, entry_status.
  repeat constructor; apply verdict_lowercase; reflexivity.
Qed.

(** Without a faulty entry, every entry gets its system calls. *)
Lemma syscalls_all (dir root : string) (fs : gmap string node)
    (hashes : list (string * string)) :
  List.find (faulty dir root fs) hashes = None ->
  syscalls dir root fs hashes =
  list_sum (List.map (fun item => cost fs (path_of dir root item)) hashes).
Proof.
  induction hashes as [|item rest IH]; [reflexivity|].
  cbn [List.find syscalls List.map list_sum].
  destruct (faulty dir root fs item); [discriminate|].
  intros H. rewrite (IH H). reflexivity.
Qed.

Lemma cost_positive (fs : gmap string node) (path : string) : 0 < cost fs path.
Proof. unfold cost. destruct (fs !! path); lia. Qed.

(** ** verify_lock.py *)

(** One of the two checks of verify_lock.py, in any environment: the file is
    opened and hashed, and when that digest differs from the expected one the
    file is opened and hashed again for the report. *)
Lemma dsp_check_spec (exp : gmap string string) (bad : list (string * string))
    (name path : string) (E : env) (s : process) :
  DspLock.check exp bad name path E s =
  match fs_at E (clock s) !! os_path.resolve (cwd E) path with
  | Some (File c1) =>
      match exp !! name with
      | None => (Raise (KeyError name), tick s)
      | Some expected =>
          if String.eqb (Spec.digest c1) expected then (Return bad, tick s)
          else
            match fs_at E (S (clock s)) !! os_path.resolve (cwd E) path with
            | Some (File c2) => (Return (bad ++ [(name, Spec.digest c2)]), tick (tick s))
            | Some Unopenable => (Raise (OSError path), tick (tick s))
            | None => (Raise (FileNotFoundError path), tick (tick s))
            end
      end
  | Some Unopenable => (Raise (OSError path), tick s)
  | None => (Raise (FileNotFoundError path), tick s)
  end.
Proof.
  unfold DspLock.check. unfold bind at 1. rewrite sha_spec.
  destruct (fs_at E (clock s) !! os_path.resolve (cwd E) path) as [[c1|]|];
    try reflexivity.
  unfold bind at 1. unfold getitem.
  destruct (exp !! name) as [expected|]; [|reflexivity].
  unfold ret at 1. destruct (String.eqb (Spec.digest c1) expected); cbn [negb];
    [reflexivity|].
  unfold bind. rewrite sha_spec. cbn [tick clock].
  destruct (fs_at E (S (clock s)) !! os_path.resolve (cwd E) path) as [[c2|]|];
    reflexivity.
Qed.


(** When both files carry their expected digest, verify_lock.py prints its
    one success line and leaves with status 0. *)
Lemma dsp_all_match (z t : string) (exp : gmap string string) (cz ct : list byte)
    (dir : string) (fs : gmap string node) (t0 : nat) :
  exp !! "ZPlaneFilter.h" = Some (Spec.digest cz) ->
  exp !! "EMUAuthenticTables.h" = Some (Spec.digest ct) ->
  fs !! os_path.resolve dir z = Some (File cz) ->
  fs !! os_path.resolve dir t = Some (File ct) ->
  run (DspLock.script_from z t exp) (steady dir fs) t0 =
  {| printed := ["DSP lock OK."]; status := 0; stopped_at := S (S t0) |}.
Proof.
  intros Hez Het Hz Ht. unfold run, DspLock.script_from.
  unfold bind at 1. rewrite dsp_check_spec. cbn [steady cwd fs_at start clock].
  rewrite Hz, Hez, String.eqb_refl.
  unfold bind at 1. rewrite dsp_check_spec. cbn [steady cwd fs_at tick clock].
  rewrite Ht, Het, String.eqb_refl.
  reflexivity.
Qed.


(** The loop that prints the findings does not look at the environment. *)
Lemma report_any_env (exp : gmap string string) (bad : list (string * string))
    (E1 E2 : env) (s : process) :
  for_each bad (DspLock.report exp) tt E1 s = for_each bad (DspLock.report exp) tt E2 s.
Proof.
  revert s. induction bad as [|[name h] bad IH]; intros s; cbn [for_each]; [reflexivity|].
  unfold bind, DspLock.report, getitem.
  destruct (exp !! name) as [expected|]; [|reflexivity].
  unfold ret, print. apply IH.
Qed.

(** verify_lock.py prints ASCII only: the encoding of stdout does not matter
    to it. *)
Lemma dsp_check_on_stdout (wide : bool) (exp : gmap string string)
    (bad : list (string * string)) (name path : string) (E : env) (s : process) :
  DspLock.check exp bad name path (on_stdout wide E) s = DspLock.check exp bad name path E s.
Proof. rewrite !dsp_check_spec. reflexivity. Qed.

Lemma dsp_on_stdout (wide : bool) (z t : string) (exp : gmap string string)
    (E : env) (t0 : nat) :
  run (DspLock.script_from z t exp) (on_stdout wide E) t0 =
  run (DspLock.script_from z t exp) E t0.
Proof.
  unfold run, DspLock.script_from. unfold bind.
  rewrite dsp_check_on_stdout.
  destruct (DspLock.check exp [] _ z E _) as [[bad1|e] s1]; [|reflexivity].
  rewrite dsp_check_on_stdout.
  destruct (DspLock.check exp bad1 _ t E _) as [[bad2|e] s2]; [|reflexivity].
  destruct bad2 as [|b bad2]; [reflexivity|].
  unfold print.
  rewrite (report_any_env exp (b :: bad2) _ E).
  reflexivity.
Qed.

(** A whole run of verify_lock.py on a filesystem that stays as it is, with
    both files readable. *)
Lemma dsp_run_steady (z t : string) (exp : gmap string string) (ez et : string)
    (cz ct : list byte) (dir : string) (fs : gmap string node) (t0 : nat) :
  exp !! "ZPlaneFilter.h" = Some ez ->
  exp !! "EMUAuthenticTables.h" = Some et ->
  fs !! os_path.resolve dir z = Some (File cz) ->
  fs !! os_path.resolve dir t = Some (File ct) ->
  let findings :=
    (if String.eqb (Spec.digest cz) ez then []
     else [dsp_line "ZPlaneFilter.h" (Spec.digest cz) ez]) ++
    (if String.eqb (Spec.digest ct) et then []
     else [dsp_line "EMUAuthenticTables.h" (Spec.digest ct) et]) in
  run (DspLock.script_from z t exp) (steady dir fs) t0 =
  match findings with
  | [] => {| printed := ["DSP lock OK."]; status := 0; stopped_at := t0 + 2 |}
  | _ :: _ =>
      {| printed := "DSP LOCK VIOLATION:" :: findings;
         status := 2;
         stopped_at := t0 + 2 + length findings |}
  end.
Proof.
  intros Hez Het Hz Ht. cbv zeta. unfold run, DspLock.script_from.
  unfold bind at 1. rewrite dsp_check_spec. cbn [steady cwd fs_at start clock].
  rewrite Hz, Hez.
  destruct (String.eqb (Spec.digest cz) ez);
    unfold bind at 1; rewrite dsp_check_spec; cbn [steady cwd fs_at tick clock];
    rewrite Ht, Het;
    destruct (String.eqb (Spec.digest ct) et); cbn [app];
    unfold for_each, DspLock.report, getitem, sys_exit, raise, dsp_line;
    unfold bind at 1; rewrite ?Hez, ?Het; unfold bind, print, ret;
    cbn [start tick clock stdout app length exit_status];
    f_equal; lia.
Qed.

(** ** Actions that do not look at the clock *)

Lemma blind_ret {A : Type} (a : A) (E : env) : clock_blind (ret a) E.
Proof. intros s1 s2 Hs. split; [reflexivity | exact Hs]. Qed.

Lemma blind_raise {A : Type} (e : exn) (E : env) : clock_blind (@raise A e) E.
Proof. intros s1 s2 Hs. split; [reflexivity | exact Hs]. Qed.

Lemma blind_print (line : string) (E : env) : clock_blind (print line) E.
Proof. intros s1 s2 Hs. unfold print. cbn. rewrite Hs. split; reflexivity. Qed.

Lemma blind_print_wide (line : string) (E : env) : clock_blind (print_wide line) E.
Proof.
  intros s1 s2 Hs. unfold print_wide.
  destruct (stdout_wide E); [apply blind_print; exact Hs|].
  split; [reflexivity | exact Hs].
Qed.

Lemma blind_getitem (d : gmap string string) (k : string) (E : env) :
  clock_blind (getitem d k) E.
Proof. unfold getitem. destruct (d !! k); [apply blind_ret | apply blind_raise]. Qed.

Lemma blind_bind {A B : Type} (m : IO A) (k : A -> IO B) (E : env) :
  clock_blind m E -> (forall a, clock_blind (k a) E) -> clock_blind (bind m k) E.
Proof.
  intros Hm Hk s1 s2 Hs. unfold bind.
  destruct (Hm s1 s2 Hs) as [Hr Hout].
  destruct (m E s1) as [r1 s1'], (m E s2) as [r2 s2']. cbn [fst snd] in Hr, Hout.
  subst r2. destruct r1 as [a|e]; [apply Hk; exact Hout|].
  split; [reflexivity | exact Hout].
Qed.

Lemma blind_for_each {A S : Type} (xs : list A) (body : S -> A -> IO S) (E : env) :
  (forall acc x, clock_blind (body acc x) E) ->
  forall acc, clock_blind (for_each xs body acc) E.
Proof.
  intros Hbody. induction xs as [|x xs IH]; intros acc; cbn [for_each].
  - apply blind_ret.
  - apply blind_bind; [apply Hbody | exact IH].
Qed.

(** On a filesystem that stays as it is, the system calls answer the same
    whenever they are made. *)
Lemma blind_exists (p dir : string) (fs : gmap string node) :
  clock_blind (exists_ p) (steady dir fs).
Proof. intros s1 s2 Hs. unfold exists_. cbn. split; [reflexivity | exact Hs]. Qed.

Lemma blind_sha256_file (p dir : string) (fs : gmap string node) :
  clock_blind (VerifyLock.sha256_file p) (steady dir fs).
Proof.
  intros s1 s2 Hs. rewrite !sha256_file_spec. cbn. split; [reflexivity | exact Hs].
Qed.

Lemma blind_sha (p dir : string) (fs : gmap string node) :
  clock_blind (DspLock.sha p) (steady dir fs).
Proof.
  intros s1 s2 Hs. rewrite !sha_spec. cbn. split; [reflexivity | exact Hs].
Qed.

Ltac blind :=
  repeat first
    [ apply blind_exists | apply blind_sha256_file | apply blind_sha
    | apply blind_ret | apply blind_raise | apply blind_print | apply blind_print_wide
    | apply blind_getitem
    | apply blind_for_each; intros ? ?
    | apply blind_bind; [|intros ?]
    | match goal with |- clock_blind (if ?b then _ else _) _ => destruct b end
    | match goal with |- clock_blind (match ?l with [] => _ | _ :: _ => _ end) _ => destruct l end ].

Lemma blind_verify_lock (root : string) (hashes : list (string * string))
    (dir : string) (fs : gmap string node) :
  clock_blind (VerifyLock.script_from root hashes) (steady dir fs).
Proof.
  unfold VerifyLock.script_from, VerifyLock.main_from.
  apply blind_bind; [|intros code; apply blind_raise].
  apply blind_bind.
  - apply blind_for_each. intros ok [rel expected]. unfold VerifyLock.check. blind.
  - intros ok. blind.
Qed.

Lemma blind_dsp_lock (z t : string) (exp : gmap string string)
    (dir : string) (fs : gmap string node) :
  clock_blind (DspLock.script_from z t exp) (steady dir fs).
Proof.
  unfold DspLock.script_from, DspLock.check.
  blind.
  all: try (destruct x as [name h]; unfold DspLock.report; blind).
  all: unfold sys_exit; blind.
Qed.

Lemma blind_run (script : IO unit) (E : env) (t1 t2 : nat) :
  clock_blind script E ->
  printed (run script E t1) = printed (run script E t2) /\
  status (run script E t1) = status (run script E t2).
Proof.
  intros H. unfold run. destruct (H (start t1) (start t2) eq_refl) as [Hr Hout].
  destruct (script E (start t1)) as [r1 s1], (script E (start t2)) as [r2 s2].
  cbn [fst snd] in Hr, Hout. cbn [printed status]. subst r2. split; [exact Hout | reflexivity].
Qed.

(** ** Absolute paths and the working directory *)





(** ** Joining paths under a root *)

Lemma append_assoc (a b c : string) : (a +:+ b) +:+ c = a +:+ (b +:+ c).
Proof.
  induction a as [|x a IH]; [reflexivity|].
  rewrite !append_cons, IH. reflexivity.
Qed.

Lemma join_step_under (dir name : string) :
  pystr.truthy dir = true ->
  pystr.endswith os_path.sep dir = false ->
  pystr.startswith os_path.sep name = false ->
  os_path.join_step dir name = dir +:+ String os_path.sep name.
Proof.
  intros Hdir Hend Hname. unfold os_path.join_step.
  rewrite Hname, Hdir, Hend. reflexivity.
Qed.

Lemma truthy_append (a b : string) :
  pystr.truthy b = true -> pystr.truthy (a +:+ b) = true.
Proof.
  intros Hb. destruct a; [rewrite append_empty; exact Hb | reflexivity].
Qed.

Lemma join_step_deeper (a b name : string) :
  pystr.truthy b = true ->
  pystr.endswith os_path.sep b = false ->
  pystr.startswith os_path.sep name = false ->
  os_path.join_step (a +:+ b) name = a +:+ (b +:+ String os_path.sep name).
Proof.
  intros Hb Hend Hname. rewrite join_step_under.
  - apply append_assoc.
  - apply truthy_append. exact Hb.
  - rewrite endswith_append by exact Hb. exact Hend.
  - exact Hname.
Qed.

(** The directory of the two files of verify_lock.py, under a root that is
    not empty and does not end in a slash. *)
Lemma dsp_directory_under (root name : string) :
  pystr.truthy root = true ->
  pystr.endswith os_path.sep root = false ->
  pystr.truthy name = true ->
  pystr.startswith os_path.sep name = false ->
  os_path.join root ["plugins"; "EngineField"; "Source"; "dsp"; name] =
  root +:+ ("/plugins/EngineField/Source/dsp" +:+ String os_path.sep name).
Proof.
  intros Hroot Hend Hname Hrel. unfold os_path.join. cbn [fold_left].
  rewrite (join_step_under root "plugins" Hroot Hend eq_refl).
  rewrite (join_step_deeper root _ "EngineField") by reflexivity.
  rewrite (join_step_deeper root _ "Source") by reflexivity.
  rewrite (join_step_deeper root _ "dsp") by reflexivity.
  rewrite (join_step_deeper root _ name) by solve [reflexivity | exact Hrel].
  reflexivity.
Qed.


(* ===================================================================== *)
(** * The claims *)
(* ===================================================================== *)


Lemma EXP_lowercase :
  exists ez et,
    DspLock.EXP !! "ZPlaneFilter.h" = Some ez /\
    DspLock.EXP !! "EMUAuthenticTables.h" = Some et /\
    Spec.lowercase_hex ez = true /\ Spec.lowercase_hex et = true /\ ez <> et.
Proof. do 2 eexists. repeat split; try reflexivity. discriminate. Qed.

(** ** Exit status *)






(** ** What stops a run and what does not *)

(** C2, as amended.  A missing file and a digest mismatch are captured as
    the result state of their entry.  In verify-lock.py, whenever no
    registry path is there without being openable, the loop over the
    registry reaches its end, every entry has been looked at (one [stat],
    and one [open] when the path is there) and the lines of every entry are
    in the report; the process then leaves with 0 or 2, or with 1 when the
    failure banner cannot be encoded, which happens after the last entry was
    reported.  In verify_lock.py, whenever both files are readable, a
    mismatch of one file does not keep the other from being checked: each
    file that differs has its line in the report and the status is 0 or
    2. *)
Theorem violations_do_not_stop_the_pass (wide : bool) (root dir : string)
    (fs : gmap string node) (hashes : list (string * string)) (t0 : nat)
    (z t : string) (exp : gmap string string) (ez et : string) (cz ct : list byte) :
  let E := on_stdout wide (steady dir fs) in
  (List.find (faulty dir root fs) hashes = None ->
   let r := run (VerifyLock.script_from root hashes) E t0 in
   fst (for_each hashes (VerifyLock.check root) true E (start t0)) =
     Return (forallb (fun item => Spec.is_ok (entry_verdict dir root fs item)) hashes) /\
   stopped_at r =
     t0 + list_sum (List.map (fun item => cost fs (path_of dir root item)) hashes) /\
   Forall (fun item => incl (entry_lines item (entry_verdict dir root fs item)) (printed r))
          hashes /\
   (status r = 0%Z \/ status r = 2%Z \/ (status r = 1%Z /\ wide = false))) /\
  (exp !! "ZPlaneFilter.h" = Some ez ->
   exp !! "EMUAuthenticTables.h" = Some et ->
   fs !! os_path.resolve dir z = Some (File cz) ->
   fs !! os_path.resolve dir t = Some (File ct) ->
   let r := run (DspLock.script_from z t exp) E t0 in
   (status r = 0%Z \/ status r = 2%Z) /\
   (Spec.digest cz <> ez ->
    In (dsp_line "ZPlaneFilter.h" (Spec.digest cz) ez) (printed r)) /\
   (Spec.digest ct <> et ->
    In (dsp_line "EMUAuthenticTables.h" (Spec.digest ct) et) (printed r))).
Proof.
  intros E. subst E. cbv zeta. split.
  - intros Hnone. rewrite run_steady_on, loop_on_stdout, loop_steady. cbv zeta.
    rewrite Hnone, (before_fault_all _ _ _ _ Hnone). cbn [fst status printed stopped_at andb].
    split; [reflexivity|].
    split; [rewrite (syscalls_all _ _ _ _ Hnone); reflexivity|].
    split.
    + apply List.Forall_forall. intros item Hin line Hline.
      apply in_or_app. left. apply in_flat_map. exists item. split; assumption.
    + unfold closing_status. destruct (forallb _ hashes); [left; reflexivity|].
      destruct wide; [right; left; reflexivity | right; right; split; reflexivity].
  - intros Hez Het Hz Ht.
    rewrite dsp_on_stdout, (dsp_run_steady z t exp ez et cz ct dir fs t0 Hez Het Hz Ht).
    cbv zeta.
    destruct (String.eqb (Spec.digest cz) ez) eqn:Hcz;
      destruct (String.eqb (Spec.digest ct) et) eqn:Hct;
      cbn [app printed status];
      (split; [first [left; reflexivity | right; reflexivity]|]);
      split; intros Hdiff;
      try (apply String.eqb_eq in Hcz; contradiction);
      try (apply String.eqb_eq in Hct; contradiction);
      cbn [In]; auto.
Qed.

(** The amended C2 on a checkout from which every protected file of
    verify-lock.py is gone, with a stdout that cannot encode the banner: all
    three entries are looked at and reported Missing.  And verify_lock.py on
    two files that both differ from the shipped table: both are reported. *)
Lemma violations_do_not_stop_the_pass_witness :
  List.find (faulty "/" (VerifyLock.ROOT script_path) small_fs) VerifyLock.HASHES = None /\
  stopped_at (run (VerifyLock.script script_path) (on_stdout false (steady "/" small_fs)) 0) = 3 /\
  Forall (fun item =>
            incl (entry_lines item (entry_verdict "/" (VerifyLock.ROOT script_path) small_fs item))
                 (printed (run (VerifyLock.script script_path)
                               (on_stdout false (steady "/" small_fs)) 0)))
         VerifyLock.HASHES /\
  In (dsp_line "EMUAuthenticTables.h" (Spec.digest [])
        "b3bd58a897b16065c12faa3e2b966f0ac9a28581231ece2be599e19d14cf3756")
     (printed (run (DspLock.script_from "/r/a.h" "/r/b.h" DspLock.EXP)
                   (on_stdout false (steady "/" small_fs)) 0)).
Proof.
  assert (Hnone : List.find (faulty "/" (VerifyLock.ROOT script_path) small_fs)
                             VerifyLock.HASHES = None) by reflexivity.
  assert (Hz : small_fs !! os_path.resolve "/" "/r/a.h" = Some (File abc)) by reflexivity.
  assert (Ht : small_fs !! os_path.resolve "/" "/r/b.h" = Some (File [])) by reflexivity.
  pose proof (violations_do_not_stop_the_pass false (VerifyLock.ROOT script_path) "/" small_fs
                VerifyLock.HASHES 0 "/r/a.h" "/r/b.h" DspLock.EXP
                "dbfe0b15ba73ab1a44a698e31617fecb0a71cb622dc10c7770994f55e3554f33"
                "b3bd58a897b16065c12faa3e2b966f0ac9a28581231ece2be599e19d14cf3756"
                abc [])
    as [Hmain Hdsp].
  destruct (Hmain Hnone) as [_ [Hstop [Hlines _]]].
  destruct (Hdsp eq_refl eq_refl Hz Ht) as [_ [_ Hsecond]].
  split; [exact Hnone|]. split; [exact Hstop|]. split; [exact Hlines|].
  apply Hsecond. vm_compute. discriminate.
Defined.

(** C2, as stated, fails.  When the first protected path of verify-lock.py
    is there but cannot be opened, the run ends there with status 1 after
    two system calls: the two remaining entries, both Missing, are never
    looked at and nothing is reported.  verify_lock.py stops the same way at
    its first file when that file is gone. *)
Lemma fault_stops_the_run :
  run (VerifyLock.script script_path) (steady "/" first_unopenable) 0 =
    {| printed := []; status := 1; stopped_at := 2 |} /\
  List.map (entry_status "/" (VerifyLock.ROOT script_path) first_unopenable)
           VerifyLock.HASHES = [Spec.Missing; Spec.Missing; Spec.Missing] /\
  run (DspLock.script dsp_script_path) (steady "/" ∅) 0 =
    {| printed := []; status := 1; stopped_at := 1 |}.
Proof. repeat split. Qed.

(** ** Missing *)

(** C3, as amended.  In verify-lock.py an entry whose path does not exist is
    Missing: its line, and no other, is added to the report, [ok] becomes
    false, and the loop goes on to the next entry.  This holds in every
    environment, also one that changes during the run. *)
Theorem absent_path_is_missing (root : string) (ok : bool) (item : string * string)
    (E : env) (s : process) :
  fs_at E (clock s) !! os_path.resolve (cwd E) (os_path.join root [fst item]) = None ->
  VerifyLock.check root ok item E s =
  (Return false,
   {| clock := S (clock s); stdout := stdout s ++ entry_lines item Spec.Missing |}).
Proof.
  intros Hnone. destruct item as [rel expected]. cbn [fst] in Hnone.
  unfold VerifyLock.check, bind, exists_. rewrite Hnone. reflexivity.
Qed.

(** The amended C3 on a checkout from which the file is gone. *)
Lemma absent_path_is_missing_witness :
  fs_at (steady "/" ∅) 0 !!
    os_path.resolve "/" (os_path.join "/repo" ["plugins/field/Source/dsp/ZPlaneFilter.h"]) = None /\
  VerifyLock.check "/repo" true
    ("plugins/field/Source/dsp/ZPlaneFilter.h",
     "d73839b6852f7f5d8f135b18cea9c8f68c89962e33342b91bdea99607003e821")
    (steady "/" ∅) (start 0) =
  (Return false,
   {| clock := 1;
      stdout := ["[LOCK] Missing locked file: plugins/field/Source/dsp/ZPlaneFilter.h"] |}).
Proof.
  split; [reflexivity|].
  apply (absent_path_is_missing "/repo" true
           ("plugins/field/Source/dsp/ZPlaneFilter.h",
            "d73839b6852f7f5d8f135b18cea9c8f68c89962e33342b91bdea99607003e821")
           (steady "/" ∅) (start 0)).
  reflexivity.
Defined.

(** C3, as stated, fails.  A path that is there but cannot be opened is
    Missing for the specification, but the loop body of verify-lock.py
    raises the [OSError] of [open] and prints nothing; and in verify_lock.py
    a path that does not exist raises [FileNotFoundError]. *)
Lemma unopenable_path_raises :
  entry_status "/" (VerifyLock.ROOT script_path) first_unopenable
    ("plugins/field/Source/dsp/EMUAuthenticTables.h",
     "06fbc6e2fd27db087219f0d9f53f9962997f8cb8001490458f6053bc2e46aa86") = Spec.Missing /\
  VerifyLock.check (VerifyLock.ROOT script_path) true
    ("plugins/field/Source/dsp/EMUAuthenticTables.h",
     "06fbc6e2fd27db087219f0d9f53f9962997f8cb8001490458f6053bc2e46aa86")
    (steady "/" first_unopenable) (start 0) =
  (Raise (OSError "/repo/plugins/field/Source/dsp/EMUAuthenticTables.h"),
   {| clock := 2; stdout := [] |}) /\
  Spec.verify ∅ (os_path.resolve "/" (DspLock.Z dsp_script_path))
    "dbfe0b15ba73ab1a44a698e31617fecb0a71cb622dc10c7770994f55e3554f33" = Spec.Missing /\
  DspLock.check DspLock.EXP [] "ZPlaneFilter.h" (DspLock.Z dsp_script_path)
    (steady "/" ∅) (start 0) =
  (Raise (FileNotFoundError "/repo/plugins/EngineField/Source/dsp/ZPlaneFilter.h"),
   {| clock := 1; stdout := [] |}).
Proof. repeat split. Qed.

(** ** The order of the report *)

(** C7.  Whatever the filesystem holds, whichever entries fail and whatever
    the encoding of stdout, the report of verify-lock.py is the lines of the
    entries, one entry after the other in the order of the registry.  They
    are followed by what closes the run: the closing line, or nothing when
    the failure banner cannot be encoded.  When an [open] raises, the report
    is cut at that entry and is in registry order up to there. *)
Theorem report_follows_registry_order (wide : bool) (root dir : string)
    (fs : gmap string node) (hashes : list (string * string)) (t0 : nat) :
  printed (run (VerifyLock.script_from root hashes) (on_stdout wide (steady dir fs)) t0) =
  flat_map (fun item => entry_lines item (entry_verdict dir root fs item))
           (before_fault dir root fs hashes) ++
  match List.find (faulty dir root fs) hashes with
  | None =>
      closing wide (forallb (fun item => Spec.is_ok (entry_verdict dir root fs item)) hashes)
  | Some _ => []
  end.
Proof.
  rewrite run_steady_on. cbv zeta.
  destruct (List.find (faulty dir root fs) hashes); cbn [printed];
    [rewrite app_nil_r|]; reflexivity.
Qed.

(** C7 on a checkout in which only the second protected file is there, with
    other content: Missing, Mismatch (three lines), Missing, then the
    banner. *)
Example report_in_order :
  printed (run (VerifyLock.script script_path)
               (steady "/" {[ "/repo/plugins/field/Source/dsp/ZPlaneFilter.h" := File abc ]}) 0) =
  [ "[LOCK] Missing locked file: plugins/field/Source/dsp/EMUAuthenticTables.h";
    "[LOCK] Hash mismatch for plugins/field/Source/dsp/ZPlaneFilter.h";
    "       expected: d73839b6852f7f5d8f135b18cea9c8f68c89962e33342b91bdea99607003e821";
    "       got     : ba7816bf8f01cfea414140de5dae2223b00361a396177a9cb410ff61f20015ad";
    "[LOCK] Missing locked file: plugins/field/Source/dsp/EnvelopeFollower.h";
    VerifyLock.failure_banner ].
Proof. vm_compute. reflexivity. Qed.

(** The same checkout with a stdout that cannot encode the banner: the same
    lines in the same order, and no banner. *)
Example report_in_order_without_banner :
  printed (run (VerifyLock.script script_path)
               (on_stdout false
                  (steady "/" {[ "/repo/plugins/field/Source/dsp/ZPlaneFilter.h" := File abc ]}))
               0) =
  [ "[LOCK] Missing locked file: plugins/field/Source/dsp/EMUAuthenticTables.h";
    "[LOCK] Hash mismatch for plugins/field/Source/dsp/ZPlaneFilter.h";
    "       expected: d73839b6852f7f5d8f135b18cea9c8f68c89962e33342b91bdea99607003e821";
    "       got     : ba7816bf8f01cfea414140de5dae2223b00361a396177a9cb410ff61f20015ad";
    "[LOCK] Missing locked file: plugins/field/Source/dsp/EnvelopeFollower.h" ].
Proof. vm_compute. reflexivity. Qed.

(** When no [open] raises, those are all the entries of the registry. *)
Lemma report_complete (root dir : string) (fs : gmap string node)
    (hashes : list (string * string)) (t0 : nat) :
  List.find (faulty dir root fs) hashes = None ->
  printed (run (VerifyLock.script_from root hashes) (steady dir fs) t0) =
  flat_map (fun item => entry_lines item (entry_verdict dir root fs item)) hashes ++
  [closing_line (forallb (fun item => Spec.is_ok (entry_verdict dir root fs item)) hashes)].
Proof.
  intros Hnone. rewrite run_steady. cbv zeta.
  rewrite Hnone, (before_fault_all _ _ _ _ Hnone). reflexivity.
Qed.

(** ** Success *)

Lemma matching_entries (root dir : string) (fs : gmap string node)
    (hashes : list (string * string)) :
  Forall (fun item => exists content,
            fs !! path_of dir root item = Some (File content) /\
            Spec.digest content = snd item) hashes ->
  List.find (faulty dir root fs) hashes = None /\
  before_fault dir root fs hashes = hashes /\
  forallb (fun item => Spec.is_ok (entry_verdict dir root fs item)) hashes = true /\
  flat_map (fun item => entry_lines item (entry_verdict dir root fs item)) hashes = [].
Proof.
  induction 1 as [|item rest [content [Hfile Hdigest]] Hrest [IH1 [IH2 [IH3 IH4]]]].
  - repeat split.
  - cbn [List.find before_fault forallb flat_map].
    unfold faulty, entry_verdict, verdict. rewrite Hfile, Hdigest, String.eqb_refl.
    cbn [Spec.is_ok entry_lines andb app].
    unfold faulty in IH1. unfold entry_verdict, verdict in IH3, IH4.
    rewrite IH1, IH2, IH3, IH4. repeat split.
Qed.

(** C8, as amended.  When every protected file is there and its digest is
    the expected one, each script prints its one success line and leaves
    with status 0: "LOCK OK" for verify-lock.py, "DSP lock OK." for
    verify_lock.py.  The encoding of stdout does not matter. *)
Theorem all_match_prints_success_line (wide : bool) (root dir : string)
    (fs : gmap string node) (hashes : list (string * string)) (t0 : nat)
    (z t : string) (exp : gmap string string) (cz ct : list byte) :
  let E := on_stdout wide (steady dir fs) in
  (Forall (fun item => exists content,
             fs !! path_of dir root item = Some (File content) /\
             Spec.digest content = snd item) hashes ->
   printed (run (VerifyLock.script_from root hashes) E t0) = ["LOCK OK"] /\
   status (run (VerifyLock.script_from root hashes) E t0) = 0%Z) /\
  (exp !! "ZPlaneFilter.h" = Some (Spec.digest cz) ->
   exp !! "EMUAuthenticTables.h" = Some (Spec.digest ct) ->
   fs !! os_path.resolve dir z = Some (File cz) ->
   fs !! os_path.resolve dir t = Some (File ct) ->
   printed (run (DspLock.script_from z t exp) E t0) = ["DSP lock OK."] /\
   status (run (DspLock.script_from z t exp) E t0) = 0%Z).
Proof.
  intros E. subst E. split.
  - intros Hall. destruct (matching_entries root dir fs hashes Hall) as [H1 [H2 [H3 H4]]].
    rewrite run_steady_on. cbv zeta. rewrite H1, H2, H3, H4. split; reflexivity.
  - intros Hez Het Hz Ht.
    rewrite dsp_on_stdout, (dsp_all_match z t exp cz ct dir fs t0 Hez Het Hz Ht).
    split; reflexivity.
Qed.

(** The amended C8 on a registry and a table of two entries whose files are
    there as expected. *)
Lemma all_match_prints_success_line_witness :
  Forall (fun item => exists content,
            small_fs !! path_of "/" "/r" item = Some (File content) /\
            Spec.digest content = snd item) small_registry /\
  small_exp !! "ZPlaneFilter.h" = Some (Spec.digest abc) /\
  small_exp !! "EMUAuthenticTables.h" = Some (Spec.digest []) /\
  (printed (run (VerifyLock.script_from "/r" small_registry)
                (on_stdout true (steady "/" small_fs)) 0) = ["LOCK OK"] /\
   status (run (VerifyLock.script_from "/r" small_registry)
               (on_stdout true (steady "/" small_fs)) 0) = 0%Z) /\
  (printed (run (DspLock.script_from "/r/a.h" "/r/b.h" small_exp)
                (on_stdout true (steady "/" small_fs)) 0) = ["DSP lock OK."] /\
   status (run (DspLock.script_from "/r/a.h" "/r/b.h" small_exp)
               (on_stdout true (steady "/" small_fs)) 0) = 0%Z).
Proof.
  assert (H : Forall (fun item => exists content,
                        small_fs !! path_of "/" "/r" item = Some (File content) /\
                        Spec.digest content = snd item) small_registry).
  { repeat constructor.
    - exists abc. split; vm_compute; reflexivity.
    - exists []. split; vm_compute; reflexivity. }
  assert (Hez : small_exp !! "ZPlaneFilter.h" = Some (Spec.digest abc))
    by (vm_compute; reflexivity).
  assert (Het : small_exp !! "EMUAuthenticTables.h" = Some (Spec.digest []))
    by (vm_compute; reflexivity).
  split; [exact H|]. split; [exact Hez|]. split; [exact Het|].
  destruct (all_match_prints_success_line true "/r" "/" small_fs small_registry 0
              "/r/a.h" "/r/b.h" small_exp abc []) as [Hmain Hdsp].
  split; [exact (Hmain H) | exact (Hdsp Hez Het eq_refl eq_refl)].
Defined.

(** C8, as stated, fails for verify_lock.py: its success line is not
    "LOCK OK".  With both files as the table expects them the script prints
    "DSP lock OK."; and so does the shipped script, with the shipped table,
    in every filesystem that matches it. *)
Lemma success_line_of_verify_lock_py :
  small_exp !! "ZPlaneFilter.h" = Some (Spec.digest abc) /\
  small_exp !! "EMUAuthenticTables.h" = Some (Spec.digest []) /\
  small_fs !! os_path.resolve "/" "/r/a.h" = Some (File abc) /\
  small_fs !! os_path.resolve "/" "/r/b.h" = Some (File []) /\
  run (DspLock.script_from "/r/a.h" "/r/b.h" small_exp) (steady "/" small_fs) 0 =
    {| printed := ["DSP lock OK."]; status := 0; stopped_at := 2 |} /\
  printed (run (DspLock.script_from "/r/a.h" "/r/b.h" small_exp) (steady "/" small_fs) 0) <>
    ["LOCK OK"] /\
  (forall (__file__ dir : string) (fs : gmap string node) (cz ct : list byte) (t0 : nat),
     DspLock.EXP !! "ZPlaneFilter.h" = Some (Spec.digest cz) ->
     DspLock.EXP !! "EMUAuthenticTables.h" = Some (Spec.digest ct) ->
     fs !! os_path.resolve dir (DspLock.Z __file__) = Some (File cz) ->
     fs !! os_path.resolve dir (DspLock.T __file__) = Some (File ct) ->
     printed (run (DspLock.script __file__) (steady dir fs) t0) = ["DSP lock OK."]).
Proof.
  split; [vm_compute; reflexivity|]. split; [vm_compute; reflexivity|].
  split; [reflexivity|]. split; [reflexivity|].
  split; [vm_compute; reflexivity|].
  split; [vm_compute; discriminate|].
  intros __file__ dir fs cz ct t0 Hez Het Hz Ht. unfold DspLock.script.
  rewrite (dsp_all_match _ _ DspLock.EXP cz ct dir fs t0 Hez Het Hz Ht). reflexivity.
Qed.

(** ** The digest engine of the two scripts *)

(** C4.  Feeding the SHA-256 object the file in reads of 8192 bytes until a
    read comes back empty gives the digest of hashing the whole content in
    one read; and [sha256_file] of verify-lock.py and [sha] of verify_lock.py
    are the same action: same result or exception, same system call. *)
Theorem chunked_digest_is_whole_digest :
  (forall content : list byte,
     hashlib.hexdigest (VerifyLock.read_loop VerifyLock.chunk hashlib.new {| unread := content |}) =
     hashlib.hexdigest (hashlib.sha256 (fst (read_all {| unread := content |})))) /\
  (forall (p : string) (E : env) (s : process),
     VerifyLock.sha256_file p E s = DspLock.sha p E s).
Proof.
  split.
  - intros content. rewrite read_loop_update by apply chunk_positive. reflexivity.
  - intros p E s. rewrite sha256_file_spec, sha_spec. reflexivity.
Qed.

(** The size of the reads does not matter, as long as it is not zero. *)
Lemma any_chunk_size (n : nat) (content : list byte) :
  0 < n ->
  hashlib.hexdigest (VerifyLock.read_loop n hashlib.new {| unread := content |}) =
  Spec.digest content.
Proof. intros Hn. rewrite read_loop_update by exact Hn. reflexivity. Qed.

(** SHA-256 of "abc" and of the empty input, as in FIPS 180-4. *)
Example digest_abc :
  Spec.digest abc = "ba7816bf8f01cfea414140de5dae2223b00361a396177a9cb410ff61f20015ad".
Proof. vm_compute. reflexivity. Qed.

Example digest_empty :
  Spec.digest [] = "e3b0c44298fc1c149afbf4c8996fb92427ae41e4649b934ca495991b7852b855".
Proof. vm_compute. reflexivity. Qed.

(** Two blocks and a partial one, read seven bytes at a time. *)
Example digest_in_small_reads :
  hashlib.hexdigest (VerifyLock.read_loop 7 hashlib.new {| unread := repeat "a"%byte 130 |}) =
  "1e3c4f4750c8c29bbfa9ced317788176b156d342e57f7777f62fd7221a44312f".
Proof. vm_compute. reflexivity. Qed.

(** ** The comparison *)






(** The comparison is the exact one all the same: an expected digest written
    in capitals, which neither registry has, would never be matched. *)
Remark capitals_never_match :
  Spec.hex_equal (Spec.digest abc)
    "BA7816BF8F01CFEA414140DE5DAE2223B00361A396177A9CB410FF61F20015AD" = true /\
  fst (VerifyLock.check "/r" true
         ("a.h", "BA7816BF8F01CFEA414140DE5DAE2223B00361A396177A9CB410FF61F20015AD")
         (steady "/" small_fs) (start 0)) = Return false.
Proof. split; vm_compute; reflexivity. Qed.

(** ** The root *)




(** The same with the script named without a directory. *)
Remark relative_script_path :
  VerifyLock.ROOT "verify-lock.py" = "" /\
  path_of "/repo/scripts" (VerifyLock.ROOT "verify-lock.py") ("a.h", "") = "/repo/scripts/a.h" /\
  path_of "/tmp" (VerifyLock.ROOT "verify-lock.py") ("a.h", "") = "/tmp/a.h".
Proof. repeat split. Qed.

(** ** Running twice *)

(** C9.  On a filesystem that stays as it is, a run of either script gives
    the same report and the same exit status whenever it is made, so two
    runs one after the other agree; the result states of the entries are
    functions of the filesystem alone. *)
Theorem rerun_is_identical (root : string) (hashes : list (string * string))
    (z t : string) (exp : gmap string string)
    (dir : string) (fs : gmap string node) (t1 t2 : nat) :
  (let first := run (VerifyLock.script_from root hashes) (steady dir fs) t1 in
   let second := run (VerifyLock.script_from root hashes) (steady dir fs) t2 in
   printed first = printed second /\ status first = status second) /\
  (let first := run (DspLock.script_from z t exp) (steady dir fs) t1 in
   let second := run (DspLock.script_from z t exp) (steady dir fs) t2 in
   printed first = printed second /\ status first = status second).
Proof.
  split; cbv zeta; apply blind_run; [apply blind_verify_lock | apply blind_dsp_lock].
Qed.

(** The second run starting where the first one stopped. *)
Corollary second_run_is_identical (__file__ dir : string) (fs : gmap string node) :
  let first := run (VerifyLock.script __file__) (steady dir fs) 0 in
  let second := run (VerifyLock.script __file__) (steady dir fs) (stopped_at first) in
  printed first = printed second /\ status first = status second.
Proof.
  cbv zeta. apply blind_run. apply blind_verify_lock.
Qed.

(** ** The second read of verify_lock.py *)



(* ===================================================================== *)
(** * Beyond the claims *)
(* ===================================================================== *)

(** ** verify-lock.py in an environment that may change *)

(** What one turn of the loop can do to [ok] and to the report: it returns
    [ok] unchanged and prints nothing, or returns false and prints, or
    raises an exception of [open] and prints nothing. *)
Lemma check_step (root : string) (ok : bool) (item : string * string)
    (E : env) (s : process) :
  match VerifyLock.check root ok item E s with
  | (Return ok', s') =>
      exists lines, stdout s' = stdout s ++ lines /\
                    ((ok' = ok /\ lines = []) \/ (ok' = false /\ lines <> []))
  | (Raise e, s') => open_error e /\ stdout s' = stdout s
  end.
Proof.
  destruct item as [rel expected]. rewrite check_anywhere. cbv zeta.
  destruct (fs_at E (clock s) !! _) as [n|].
  - destruct (fs_at E (S (clock s)) !! _) as [[content|]|]; try (split; [exact I | reflexivity]).
    destruct (String.eqb (Spec.digest content) expected).
    + exists []. rewrite app_nil_r. split; [reflexivity | left; split; reflexivity].
    + eexists. split; [reflexivity | right; split; [reflexivity | discriminate]].
  - eexists. split; [reflexivity | right; split; [reflexivity | discriminate]].
Qed.

(** The whole loop, in any environment. *)
Lemma loop_anywhere (root : string) (hashes : list (string * string)) (ok : bool)
    (E : env) (s : process) :
  match for_each hashes (VerifyLock.check root) ok E s with
  | (Return ok', s') =>
      exists lines, stdout s' = stdout s ++ lines /\
                    ((ok' = ok /\ lines = []) \/ (ok' = false /\ lines <> []))
  | (Raise e, s') => open_error e
  end.
Proof.
  revert ok s. induction hashes as [|item rest IH]; intros ok s; cbn [for_each].
  - exists []. rewrite app_nil_r. split; [reflexivity | left; split; reflexivity].
  - unfold bind. pose proof (check_step root ok item E s) as Hstep.
    destruct (VerifyLock.check root ok item E s) as [[ok1|e] s1]; [|apply Hstep].
    destruct Hstep as [lines1 [Hout1 Hcase1]].
    specialize (IH ok1 s1).
    destruct (for_each rest (VerifyLock.check root) ok1 E s1) as [[ok2|e] s2]; [|exact IH].
    destruct IH as [lines2 [Hout2 Hcase2]].
    exists (lines1 ++ lines2). split; [rewrite Hout2, Hout1, app_assoc; reflexivity|].
    destruct Hcase1 as [[-> ->] | [-> Hne1]].
    + destruct Hcase2 as [[-> ->] | [-> Hne2]]; [left | right]; split; try reflexivity.
      exact Hne2.
    + right. destruct Hcase2 as [[-> ->] | [-> Hne2]]; split; try reflexivity.
      * rewrite app_nil_r. exact Hne1.
      * intros Happ. apply app_eq_nil in Happ as [H1 _]. contradiction.
Qed.

(** X1.  On a filesystem that stays as it is, a protected file that is
    there with a digest other than the expected one is reported in three
    lines, which name the entry, the expected digest and the SHA-256 digest
    of the content of the file; [ok] becomes false.  The encoding of stdout
    does not matter. *)
Theorem mismatch_is_reported (wide : bool) (root dir : string) (fs : gmap string node)
    (ok : bool) (rel expected : string) (s : process) (content : list byte) :
  fs !! path_of dir root (rel, expected) = Some (File content) ->
  Spec.digest content <> expected ->
  let r := VerifyLock.check root ok (rel, expected) (on_stdout wide (steady dir fs)) s in
  fst r = Return false /\
  stdout (snd r) =
    stdout s ++
    ["[LOCK] Hash mismatch for " +:+ rel;
     "       expected: " +:+ expected;
     "       got     : " +:+
       string_of_list_ascii (hashlib.hex_regs (FIPS180.SHA256 content))].
Proof.
  intros Hfile Hdiff. cbv zeta. rewrite check_on_stdout, check_steady.
  unfold faulty, entry_verdict, verdict. rewrite Hfile. cbn [snd fst].
  apply String.eqb_neq in Hdiff. rewrite Hdiff, andb_false_r.
  cbn [Spec.is_ok entry_lines stdout fst]. rewrite digest_is_sha256.
  split; reflexivity.
Qed.

(** X1 on the file "abc" held against the digest of the empty file, with a
    stdout that cannot encode the banner. *)
Lemma mismatch_is_reported_witness :
  Spec.digest abc <> "e3b0c44298fc1c149afbf4c8996fb92427ae41e4649b934ca495991b7852b855" /\
  stdout (snd (VerifyLock.check "/r" true
                 ("a.h", "e3b0c44298fc1c149afbf4c8996fb92427ae41e4649b934ca495991b7852b855")
                 (on_stdout false (steady "/" small_fs)) (start 0))) =
  [] ++
  ["[LOCK] Hash mismatch for " +:+ "a.h";
   "       expected: " +:+
     "e3b0c44298fc1c149afbf4c8996fb92427ae41e4649b934ca495991b7852b855";
   "       got     : " +:+
     string_of_list_ascii (hashlib.hex_regs (FIPS180.SHA256 abc))].
Proof.
  assert (Hdiff : Spec.digest abc <>
                  "e3b0c44298fc1c149afbf4c8996fb92427ae41e4649b934ca495991b7852b855").
  { vm_compute. discriminate. }
  split; [exact Hdiff|].
  apply (mismatch_is_reported false "/r" "/" small_fs true "a.h"
           "e3b0c44298fc1c149afbf4c8996fb92427ae41e4649b934ca495991b7852b855"
           (start 0) abc eq_refl Hdiff).
Defined.

Lemma string_length_list (s : string) :
  String.length s = length (list_ascii_of_string s).
Proof. induction s as [|c s IH]; cbn; [reflexivity | rewrite IH; reflexivity]. Qed.

(** X2.  An expected digest that is not 64 characters of lowercase
    hexadecimal can never be matched: whatever a readable file holds, its
    entry is reported as a mismatch. *)
Theorem malformed_expected_never_matches (root dir : string) (fs : gmap string node)
    (ok : bool) (rel expected : string) (content : list byte) (s : process) :
  fs !! path_of dir root (rel, expected) = Some (File content) ->
  String.length expected <> 64 \/ Spec.lowercase_hex expected = false ->
  entry_verdict dir root fs (rel, expected) = Spec.Mismatch (Spec.digest content) /\
  fst (VerifyLock.check root ok (rel, expected) (steady dir fs) s) = Return false.
Proof.
  intros Hfile Hbad.
  assert (Hdiff : String.eqb (Spec.digest content) expected = false).
  { apply String.eqb_neq. intros Heq. destruct Hbad as [Hlen | Hlow].
    - apply Hlen. rewrite <- Heq, string_length_list. apply hexdigest_length.
    - rewrite <- Heq, digest_lowercase in Hlow. discriminate Hlow. }
  split.
  - unfold entry_verdict, verdict. rewrite Hfile. cbn [snd]. rewrite Hdiff. reflexivity.
  - rewrite check_steady. unfold faulty, entry_verdict, verdict.
    rewrite Hfile. cbn [snd fst]. rewrite Hdiff, andb_false_r. reflexivity.
Qed.

(** X2 on an expected digest cut short by one character. *)
Lemma malformed_expected_never_matches_witness :
  String.length "ba7816bf8f01cfea414140de5dae2223b00361a396177a9cb410ff61f20015a" <> 64 /\
  fst (VerifyLock.check "/r" true
         ("a.h", "ba7816bf8f01cfea414140de5dae2223b00361a396177a9cb410ff61f20015a")
         (steady "/" small_fs) (start 0)) = Return false.
Proof.
  assert (Hlen : String.length
                   "ba7816bf8f01cfea414140de5dae2223b00361a396177a9cb410ff61f20015a" <> 64).
  { vm_compute. discriminate. }
  split; [exact Hlen|].
  apply (malformed_expected_never_matches "/r" "/" small_fs true "a.h"
           "ba7816bf8f01cfea414140de5dae2223b00361a396177a9cb410ff61f20015a"
           abc (start 0) eq_refl (or_introl Hlen)).
Defined.

(** X3.  Between [os.path.exists] and [open] the file can disappear: the
    loop body then raises [FileNotFoundError] without printing anything,
    and the run ends with status 1, the entries behind it unchecked. *)
Theorem vanished_file_raises (root : string) (ok : bool) (rel expected : string)
    (hashes : list (string * string)) (E : env) (t0 : nat) (n : node) :
  fs_at E t0 !! os_path.resolve (cwd E) (os_path.join root [rel]) = Some n ->
  fs_at E (S t0) !! os_path.resolve (cwd E) (os_path.join root [rel]) = None ->
  VerifyLock.check root ok (rel, expected) E (start t0) =
    (Raise (FileNotFoundError (os_path.join root [rel])),
     {| clock := S (S t0); stdout := [] |}) /\
  run (VerifyLock.script_from root ((rel, expected) :: hashes)) E t0 =
    {| printed := []; status := 1; stopped_at := S (S t0) |}.
Proof.
  intros Hstat Hopen.
  assert (Hcheck : forall ok', VerifyLock.check root ok' (rel, expected) E (start t0) =
            (Raise (FileNotFoundError (os_path.join root [rel])),
             {| clock := S (S t0); stdout := [] |})).
  { intros ok'. rewrite check_anywhere. cbv zeta. cbn [start clock stdout].
    rewrite Hstat, Hopen. reflexivity. }
  split; [apply Hcheck|].
  unfold run, VerifyLock.script_from, VerifyLock.main_from. unfold bind.
  cbn [for_each]. unfold bind. rewrite Hcheck. reflexivity.
Qed.

(** X3 on the first protected file of verify-lock.py, removed right after
    the [stat]. *)
Lemma vanished_file_raises_witness :
  run (VerifyLock.script script_path)
      {| cwd := "/";
         fs_at := removed "/repo/plugins/field/Source/dsp/EMUAuthenticTables.h" abc;
         stdout_wide := true |} 0 =
  {| printed := []; status := 1; stopped_at := 2 |}.
Proof.
  apply (vanished_file_raises (VerifyLock.ROOT script_path) true
           "plugins/field/Source/dsp/EMUAuthenticTables.h"
           "06fbc6e2fd27db087219f0d9f53f9962997f8cb8001490458f6053bc2e46aa86"
           _ {| cwd := "/";
                fs_at := removed "/repo/plugins/field/Source/dsp/EMUAuthenticTables.h" abc;
                stdout_wide := true |}
           0 (File abc)); reflexivity.
Defined.

(** X4.  In every environment, also a changing one, and for every registry,
    [main] ends in one of four ways and no other: it returns 0; it returns
    2, which takes a stdout that can encode the failure banner; it lets an
    exception of [open] through; or it ends on the [UnicodeEncodeError] of
    the banner, when stdout cannot encode it.  The exit status of
    verify-lock.py is 0, 1 or 2. *)
Theorem main_outcomes (root : string) (hashes : list (string * string))
    (E : env) (t0 : nat) :
  match fst (VerifyLock.main_from root hashes E (start t0)) with
  | Return code => code = 0%Z \/ (code = 2%Z /\ stdout_wide E = true)
  | Raise e =>
      open_error e \/
      (e = UnicodeEncodeError VerifyLock.failure_banner /\ stdout_wide E = false)
  end /\
  (status (run (VerifyLock.script_from root hashes) E t0) = 0%Z \/
   status (run (VerifyLock.script_from root hashes) E t0) = 1%Z \/
   status (run (VerifyLock.script_from root hashes) E t0) = 2%Z).
Proof.
  unfold run, VerifyLock.script_from, VerifyLock.main_from. unfold bind.
  pose proof (loop_anywhere root hashes true E (start t0)) as Hloop.
  destruct (for_each hashes (VerifyLock.check root) true E (start t0)) as [[ok|e] s].
  - destruct ok; cbn [negb]; [cbn; split; auto|].
    unfold print_wide. destruct (stdout_wide E); cbn; split; auto.
  - cbn. split; [left; exact Hloop|]. destruct e; cbn in Hloop; try contradiction; auto.
Qed.

(** X4 on a checkout from which the protected files are gone, with a stdout
    that cannot encode the banner. *)
Example main_ends_on_the_banner :
  fst (VerifyLock.main script_path (on_stdout false (steady "/" ∅)) (start 0)) =
  Raise (UnicodeEncodeError VerifyLock.failure_banner).
Proof. vm_compute. reflexivity. Qed.

(** X5.  A run that leaves with status 0 has printed "LOCK OK" and nothing
    else; a run that leaves with status 2 has printed at least one line
    about an entry and then, last, the failure banner.  In every
    environment. *)
Theorem success_is_silent (root : string) (hashes : list (string * string))
    (E : env) (t0 : nat) :
  let r := run (VerifyLock.script_from root hashes) E t0 in
  (status r = 0%Z -> printed r = ["LOCK OK"]) /\
  (status r = 2%Z ->
   exists lines, lines <> [] /\ printed r = lines ++ [VerifyLock.failure_banner]).
Proof.
  cbv zeta. unfold run, VerifyLock.script_from, VerifyLock.main_from. unfold bind.
  pose proof (loop_anywhere root hashes true E (start t0)) as Hloop.
  destruct (for_each hashes (VerifyLock.check root) true E (start t0)) as [[ok|e] s].
  - destruct Hloop as [lines [Hout Hcase]]. cbn [start stdout app] in Hout.
    destruct ok; cbn [negb]; unfold print, ret, raise; cbn [printed status exit_status stdout].
    + split; [|discriminate]. intros _.
      destruct Hcase as [[_ ->] | [Hfalse _]]; [|discriminate Hfalse].
      rewrite Hout. reflexivity.
    + unfold print_wide. destruct (stdout_wide E);
        cbn [print printed status exit_status stdout fst snd]; [|split; discriminate].
      split; [discriminate|]. intros _.
      destruct Hcase as [[Htrue _] | [_ Hne]]; [discriminate Htrue|].
      exists lines. split; [exact Hne | rewrite Hout; reflexivity].
  - cbn [printed status exit_status].
    destruct e; cbn in Hloop; try contradiction; split; discriminate.
Qed.

(** ** How registries compose *)

Lemma find_none_existsb {A : Type} (f : A -> bool) (l : list A) :
  List.find f l = None <-> existsb f l = false.
Proof.
  induction l as [|x l IH]; cbn [List.find existsb]; [split; reflexivity|].
  destruct (f x); cbn [orb]; [split; discriminate | exact IH].
Qed.

(** The exit status on a filesystem that stays as it is, as a function of
    the set of entries. *)
Lemma status_steady (root dir : string) (fs : gmap string node)
    (hashes : list (string * string)) (t0 : nat) :
  status (run (VerifyLock.script_from root hashes) (steady dir fs) t0) =
  if existsb (faulty dir root fs) hashes then 1%Z
  else if forallb (fun item => Spec.is_ok (entry_verdict dir root fs item)) hashes
       then 0%Z else 2%Z.
Proof.
  rewrite run_steady. cbv zeta.
  destruct (List.find (faulty dir root fs) hashes) as [item|] eqn:Hfind.
  - destruct (existsb (faulty dir root fs) hashes) eqn:Hex; [reflexivity|].
    apply find_none_existsb in Hex. congruence.
  - apply find_none_existsb in Hfind. rewrite Hfind. cbn [status].
    destruct (forallb _ hashes); reflexivity.
Qed.

Lemma existsb_permutation {A : Type} (f : A -> bool) (l l' : list A) :
  Permutation l l' -> existsb f l = existsb f l'.
Proof.
  induction 1 as [|x l l' _ IH|x y l|l l' l'' _ IH1 _ IH2]; cbn [existsb].
  - reflexivity.
  - rewrite IH. reflexivity.
  - destruct (f x), (f y); reflexivity.
  - congruence.
Qed.

Lemma forallb_permutation {A : Type} (f : A -> bool) (l l' : list A) :
  Permutation l l' -> forallb f l = forallb f l'.
Proof.
  induction 1 as [|x l l' _ IH|x y l|l l' l'' _ IH1 _ IH2]; cbn [forallb].
  - reflexivity.
  - rewrite IH. reflexivity.
  - destruct (f x), (f y); reflexivity.
  - congruence.
Qed.

(** X6.  On a filesystem that stays as it is, the exit status of
    verify-lock.py does not depend on the order of the registry: it is the
    same for any rearrangement of the entries (the report is not). *)
Theorem status_ignores_registry_order (root dir : string) (fs : gmap string node)
    (hashes hashes' : list (string * string)) (t0 : nat) :
  Permutation hashes hashes' ->
  status (run (VerifyLock.script_from root hashes) (steady dir fs) t0) =
  status (run (VerifyLock.script_from root hashes') (steady dir fs) t0).
Proof.
  intros Hperm. rewrite !status_steady.
  rewrite (existsb_permutation _ _ _ Hperm), (forallb_permutation _ _ _ Hperm).
  reflexivity.
Qed.

(** X6 on the shipped registry and the same registry read backwards, with
    the second path there but not openable: status 1 either way. *)
Lemma status_ignores_registry_order_witness :
  Permutation VerifyLock.HASHES (List.rev VerifyLock.HASHES) /\
  status (run (VerifyLock.script_from "/repo" VerifyLock.HASHES)
              (steady "/" second_unopenable) 0) =
  status (run (VerifyLock.script_from "/repo" (List.rev VerifyLock.HASHES))
              (steady "/" second_unopenable) 0).
Proof.
  assert (Hperm : Permutation VerifyLock.HASHES (List.rev VerifyLock.HASHES)).
  { apply Permutation_rev. }
  split; [exact Hperm|].
  apply (status_ignores_registry_order "/repo" "/" second_unopenable _ _ 0 Hperm).
Defined.

(** X7.  On a filesystem that stays as it is, two registries checked as one
    pass exactly when each of them passes on its own: a failure in one part
    is never made up for by the other, and two passing parts never fail
    together. *)
Theorem joined_registries_pass_together (root dir : string) (fs : gmap string node)
    (hashes1 hashes2 : list (string * string)) (t0 : nat) :
  status (run (VerifyLock.script_from root (hashes1 ++ hashes2)) (steady dir fs) t0) = 0%Z <->
  status (run (VerifyLock.script_from root hashes1) (steady dir fs) t0) = 0%Z /\
  status (run (VerifyLock.script_from root hashes2) (steady dir fs) t0) = 0%Z.
Proof.
  rewrite !status_steady, existsb_app, forallb_app.
  destruct (existsb (faulty dir root fs) hashes1), (existsb (faulty dir root fs) hashes2),
    (forallb (fun item => Spec.is_ok (entry_verdict dir root fs item)) hashes1),
    (forallb (fun item => Spec.is_ok (entry_verdict dir root fs item)) hashes2);
    cbn [orb andb]; split; try (intros [H1 H2]); try intros H;
    try discriminate; try split; reflexivity.
Qed.

(** ** The root and the paths *)

(** X8.  For a script stored as root/d/name, where root is not empty and
    does not end in a slash and d and name are plain names, [ROOT] of both
    scripts is root, verify-lock.py looks every entry up at root/rel and
    verify_lock.py looks at root/plugins/EngineField/Source/dsp/ for its two
    files. *)
Theorem paths_under_the_root (root d name : string) :
  pystr.truthy root = true ->
  pystr.endswith os_path.sep root = false ->
  pystr.truthy d = true ->
  pystr.rfind os_path.sep d = (-1)%Z ->
  pystr.rfind os_path.sep name = (-1)%Z ->
  let __file__ := (root +:+ String os_path.sep d) +:+ String os_path.sep name in
  VerifyLock.ROOT __file__ = root /\
  DspLock.ROOT __file__ = root /\
  Forall (fun item =>
            os_path.join (VerifyLock.ROOT __file__) [fst item] =
            root +:+ String os_path.sep (fst item))
         VerifyLock.HASHES /\
  DspLock.Z __file__ = root +:+ "/plugins/EngineField/Source/dsp/ZPlaneFilter.h" /\
  DspLock.T __file__ = root +:+ "/plugins/EngineField/Source/dsp/EMUAuthenticTables.h".
Proof.
  intros Hroot Hend Hd Hnd Hname __file__. subst __file__.
  pose proof (ROOT_two_levels_up root d name Hroot Hend Hd Hnd Hname) as HR.
  assert (HR' : DspLock.ROOT ((root +:+ String os_path.sep d) +:+ String os_path.sep name) = root)
    by exact HR.
  split; [exact HR|]. split; [exact HR'|]. split; [|split].
  - rewrite HR. unfold VerifyLock.HASHES.
    repeat constructor; cbn [fst os_path.join fold_left];
      apply join_step_under; solve [assumption | reflexivity].
  - unfold DspLock.Z. rewrite HR'. apply dsp_directory_under; solve [assumption | reflexivity].
  - unfold DspLock.T. rewrite HR'. apply dsp_directory_under; solve [assumption | reflexivity].
Qed.

(** X8 for the scripts stored in /repo/scripts. *)
Lemma paths_under_the_root_witness :
  VerifyLock.ROOT "/repo/scripts/verify-lock.py" = "/repo" /\
  DspLock.Z "/repo/scripts/verify_lock.py" =
    "/repo/plugins/EngineField/Source/dsp/ZPlaneFilter.h".
Proof.
  split.
  - apply (paths_under_the_root "/repo" "scripts" "verify-lock.py");
      reflexivity.
  - apply (paths_under_the_root "/repo" "scripts" "verify_lock.py");
      reflexivity.
Defined.

Lemma dirname_plain (p : string) :
  pystr.rfind os_path.sep p = (-1)%Z -> os_path.dirname p = EmptyString.
Proof.
  intros Hp. unfold os_path.dirname. rewrite Hp. cbn [Z.add Z.to_nat Z.opp].
  destruct p; reflexivity.
Qed.

(** X9.  When the directory part of [__file__] holds no slash, as for
    [python3 verify-lock.py] or [python3 scripts/verify-lock.py] on an
    interpreter that leaves [__file__] relative, [ROOT] is the empty string
    and every registry path is looked up from the working directory. *)
Theorem plain_script_path_uses_cwd (__file__ dir rel : string) :
  pystr.rfind os_path.sep (os_path.dirname __file__) = (-1)%Z ->
  pystr.startswith os_path.sep rel = false ->
  VerifyLock.ROOT __file__ = EmptyString /\
  DspLock.ROOT __file__ = EmptyString /\
  os_path.resolve dir (os_path.join (VerifyLock.ROOT __file__) [rel]) =
    dir +:+ String os_path.sep rel.
Proof.
  intros Hplain Hrel.
  assert (HR : VerifyLock.ROOT __file__ = EmptyString)
    by (unfold VerifyLock.ROOT; apply dirname_plain; exact Hplain).
  split; [exact HR|]. split; [exact HR|].
  rewrite HR. unfold os_path.join. cbn [fold_left].
  unfold os_path.join_step. rewrite Hrel. cbn [pystr.truthy negb orb].
  rewrite append_empty. unfold os_path.resolve. rewrite Hrel. reflexivity.
Qed.

(** X9 for [python3 scripts/verify-lock.py] started in /tmp. *)
Lemma plain_script_path_uses_cwd_witness :
  pystr.rfind os_path.sep (os_path.dirname "scripts/verify-lock.py") = (-1)%Z /\
  os_path.resolve "/tmp"
    (os_path.join (VerifyLock.ROOT "scripts/verify-lock.py")
                  ["plugins/field/Source/dsp/ZPlaneFilter.h"]) =
  "/tmp" +:+ String os_path.sep "plugins/field/Source/dsp/ZPlaneFilter.h".
Proof.
  split; [reflexivity|].
  apply (plain_script_path_uses_cwd "scripts/verify-lock.py" "/tmp"
           "plugins/field/Source/dsp/ZPlaneFilter.h"); reflexivity.
Defined.

(** ** The digest function *)

(** X10.  On a filesystem that stays as it is, [sha256_file] prints
    nothing.  For a path that is not there it raises [FileNotFoundError],
    for one that cannot be opened [OSError]; otherwise it returns the
    SHA-256 digest, as FIPS 180-4 defines it, of the content of the file, as
    64 characters of lowercase hexadecimal.  [sha] of verify_lock.py gives
    the same result. *)
Theorem sha256_file_outcomes (wide : bool) (p dir : string) (fs : gmap string node)
    (s : process) :
  let E := on_stdout wide (steady dir fs) in
  stdout (snd (VerifyLock.sha256_file p E s)) = stdout s /\
  fst (DspLock.sha p E s) = fst (VerifyLock.sha256_file p E s) /\
  match fs !! os_path.resolve dir p with
  | None => fst (VerifyLock.sha256_file p E s) = Raise (FileNotFoundError p)
  | Some Unopenable => fst (VerifyLock.sha256_file p E s) = Raise (OSError p)
  | Some (File content) =>
      exists h,
        fst (VerifyLock.sha256_file p E s) = Return h /\
        h = string_of_list_ascii (hashlib.hex_regs (FIPS180.SHA256 content)) /\
        String.length h = 64 /\
        Spec.lowercase_hex h = true
  end.
Proof.
  cbv zeta. rewrite sha_spec, sha256_file_spec.
  cbn [fst snd on_stdout steady cwd fs_at tick stdout].
  split; [reflexivity|]. split; [reflexivity|].
  destruct (fs !! os_path.resolve dir p) as [[content|]|]; try reflexivity.
  exists (Spec.digest content). split; [reflexivity|]. split; [apply digest_is_sha256|].
  split; [|apply digest_lowercase].
  rewrite string_length_list. apply hexdigest_length.
Qed.

(** ** verify_lock.py *)

Lemma report_prints (exp : gmap string string) (bad : list (string * string))
    (E : env) (s : process) :
  Forall (fun item => is_Some (exp !! fst item)) bad ->
  exists lines,
    for_each bad (DspLock.report exp) tt E s =
    (Return tt, {| clock := clock s; stdout := stdout s ++ lines |}) /\
    length lines = length bad.
Proof.
  intros Hbad. revert s. induction Hbad as [|[name h] bad [e He] Hbad IH]; intros s.
  - exists []. rewrite app_nil_r. destruct s. split; reflexivity.
  - cbn [fst] in He. cbn [for_each]. unfold bind at 1. unfold DspLock.report at 1.
    unfold bind at 1. unfold getitem. rewrite He. unfold ret at 1. unfold print at 1.
    destruct (IH {| clock := clock s; stdout := stdout s ++ [dsp_line name h e] |})
      as [lines [Hrun Hlen]].
    unfold dsp_line in Hrun. rewrite Hrun. cbn [clock stdout].
    exists (dsp_line name h e :: lines). split.
    + rewrite <- app_assoc. reflexivity.
    + cbn [length]. rewrite Hlen. reflexivity.
Qed.

(** X11.  On a filesystem that stays as it is and with both files readable,
    verify_lock.py prints either its success line alone, or the violation
    header followed by one line for each file whose digest differs, the one
    for ZPlaneFilter.h first, each naming the file, its digest and the
    expected one; the exit status is 0 in the first case and 2 in the
    second, and a file is opened once when it matches and twice when it
    does not. *)
Theorem dsp_report (z t : string) (exp : gmap string string) (ez et : string)
    (cz ct : list byte) (dir : string) (fs : gmap string node) (t0 : nat) :
  exp !! "ZPlaneFilter.h" = Some ez ->
  exp !! "EMUAuthenticTables.h" = Some et ->
  fs !! os_path.resolve dir z = Some (File cz) ->
  fs !! os_path.resolve dir t = Some (File ct) ->
  let findings :=
    (if String.eqb (Spec.digest cz) ez then []
     else [dsp_line "ZPlaneFilter.h" (Spec.digest cz) ez]) ++
    (if String.eqb (Spec.digest ct) et then []
     else [dsp_line "EMUAuthenticTables.h" (Spec.digest ct) et]) in
  run (DspLock.script_from z t exp) (steady dir fs) t0 =
  match findings with
  | [] => {| printed := ["DSP lock OK."]; status := 0; stopped_at := t0 + 2 |}
  | _ :: _ =>
      {| printed := "DSP LOCK VIOLATION:" :: findings;
         status := 2;
         stopped_at := t0 + 2 + length findings |}
  end.
Proof.
  intros Hez Het Hz Ht. cbv zeta. unfold run, DspLock.script_from.
  unfold bind at 1. rewrite dsp_check_spec. cbn [steady cwd fs_at start clock].
  rewrite Hz, Hez.
  destruct (String.eqb (Spec.digest cz) ez);
    unfold bind at 1; rewrite dsp_check_spec; cbn [steady cwd fs_at tick clock];
    rewrite Ht, Het;
    destruct (String.eqb (Spec.digest ct) et); cbn [app];
    unfold for_each, DspLock.report, getitem, sys_exit, raise, dsp_line;
    unfold bind at 1; rewrite ?Hez, ?Het; unfold bind, print, ret;
    cbn [start tick clock stdout app length exit_status];
    f_equal; lia.
Qed.

(** X11 with the first file as expected and the second one changed. *)
Lemma dsp_report_witness :
  run (DspLock.script_from "/r/a.h" "/r/a.h" small_exp) (steady "/" small_fs) 0 =
  {| printed :=
       [ "DSP LOCK VIOLATION:";
         dsp_line "EMUAuthenticTables.h" (Spec.digest abc)
           "e3b0c44298fc1c149afbf4c8996fb92427ae41e4649b934ca495991b7852b855" ];
     status := 2;
     stopped_at := 3 |}.
Proof.
  rewrite (dsp_report "/r/a.h" "/r/a.h" small_exp
             "ba7816bf8f01cfea414140de5dae2223b00361a396177a9cb410ff61f20015ad"
             "e3b0c44298fc1c149afbf4c8996fb92427ae41e4649b934ca495991b7852b855"
             abc abc "/" small_fs 0 eq_refl eq_refl eq_refl eq_refl).
  vm_compute. reflexivity.
Defined.

(** X12.  When one of its two files is not a readable file, verify_lock.py
    prints nothing at all and leaves with status 1, also when the other
    file has changed: the uncaught exception of [open] comes before the
    first [print]. *)
Theorem dsp_unreadable_file_hides_findings (z t : string) (exp : gmap string string)
    (dir : string) (fs : gmap string node) (t0 : nat) :
  readable fs (os_path.resolve dir z) = false \/
  readable fs (os_path.resolve dir t) = false ->
  printed (run (DspLock.script_from z t exp) (steady dir fs) t0) = [] /\
  status (run (DspLock.script_from z t exp) (steady dir fs) t0) = 1%Z.
Proof.
  unfold readable. intros Hbad.
  assert (Hrun : exists n,
            run (DspLock.script_from z t exp) (steady dir fs) t0 =
            {| printed := []; status := 1; stopped_at := n |}).
  { unfold run, DspLock.script_from.
    unfold bind at 1. rewrite dsp_check_spec. cbn [steady cwd fs_at start clock].
    destruct (fs !! os_path.resolve dir z) as [[cz|]|] eqn:Hz;
      try (eexists; reflexivity).
    destruct Hbad as [Hbad | Hbad]; [discriminate Hbad|].
    destruct (exp !! "ZPlaneFilter.h") as [ez|]; [|eexists; reflexivity].
    destruct (String.eqb (Spec.digest cz) ez);
      unfold bind at 1; rewrite dsp_check_spec; cbn [steady cwd fs_at tick clock];
      destruct (fs !! os_path.resolve dir t) as [[ct|]|];
      try discriminate Hbad; eexists; reflexivity. }
  destruct Hrun as [n ->]. split; reflexivity.
Qed.

(** X12 with the first file changed and the second one gone. *)
Lemma dsp_unreadable_file_hides_findings_witness :
  readable small_fs (os_path.resolve "/" "/r/gone.h") = false /\
  printed (run (DspLock.script_from "/r/b.h" "/r/gone.h" small_exp) (steady "/" small_fs) 0) = [] /\
  status (run (DspLock.script_from "/r/b.h" "/r/gone.h" small_exp) (steady "/" small_fs) 0) = 1%Z.
Proof.
  assert (H : readable small_fs (os_path.resolve "/" "/r/gone.h") = false) by reflexivity.
  split; [exact H|].
  apply (dsp_unreadable_file_hides_findings "/r/b.h" "/r/gone.h" small_exp "/" small_fs 0
           (or_intror H)).
Defined.

Lemma dsp_check_outcome (exp : gmap string string) (bad : list (string * string))
    (name path e : string) (E : env) (s : process) :
  exp !! name = Some e ->
  Forall (fun item => is_Some (exp !! fst item)) bad ->
  match DspLock.check exp bad name path E s with
  | (Return bad', s') =>
      Forall (fun item => is_Some (exp !! fst item)) bad' /\ stdout s' = stdout s
  | (Raise err, s') => open_error err /\ stdout s' = stdout s
  end.
Proof.
  intros He Hbad. rewrite dsp_check_spec, He.
  destruct (fs_at E (clock s) !! _) as [[c1|]|]; try (split; [exact I | reflexivity]).
  destruct (String.eqb (Spec.digest c1) e); [split; [exact Hbad | reflexivity]|].
  destruct (fs_at E (S (clock s)) !! _) as [[c2|]|]; try (split; [exact I | reflexivity]).
  split; [|reflexivity]. apply Forall_app. split; [exact Hbad|].
  constructor; [|constructor]. cbn [fst]. rewrite He. eexists. reflexivity.
Qed.

(** X13.  In every environment, also a changing one, a table that holds the
    two names makes verify_lock.py end in one of three ways: it runs off its
    end having printed its success line alone (status 0), it leaves by
    [sys.exit(2)] having printed the violation header and at least one
    finding, or an exception of [open] ends it before anything is printed
    (status 1).  It never raises [KeyError]. *)
Theorem dsp_outcomes (z t : string) (exp : gmap string string) (ez et : string)
    (E : env) (t0 : nat) :
  exp !! "ZPlaneFilter.h" = Some ez ->
  exp !! "EMUAuthenticTables.h" = Some et ->
  match DspLock.script_from z t exp E (start t0) with
  | (Return _, s) => stdout s = ["DSP lock OK."]
  | (Raise (SystemExit code), s) =>
      code = 2%Z /\
      exists findings, findings <> [] /\ stdout s = "DSP LOCK VIOLATION:" :: findings
  | (Raise (KeyError _), _) => False
  | (Raise _, s) => stdout s = []
  end.
Proof.
  intros Hez Het. unfold DspLock.script_from.
  unfold bind at 1.
  pose proof (dsp_check_outcome exp [] "ZPlaneFilter.h" z ez E (start t0) Hez
                ltac:(constructor)) as H1.
  destruct (DspLock.check exp [] "ZPlaneFilter.h" z E (start t0)) as [[bad1|e1] s1].
  2:{ destruct H1 as [Herr Hout]. destruct e1; cbn in Herr; try contradiction; exact Hout. }
  destruct H1 as [Hbad1 Hout1]. unfold bind at 1.
  pose proof (dsp_check_outcome exp bad1 "EMUAuthenticTables.h" t et E s1 Het Hbad1) as H2.
  destruct (DspLock.check exp bad1 "EMUAuthenticTables.h" t E s1) as [[bad2|e2] s2].
  2:{ destruct H2 as [Herr Hout]. rewrite Hout1 in Hout.
      destruct e2; cbn in Herr; try contradiction; exact Hout. }
  destruct H2 as [Hbad2 Hout2]. rewrite Hout1 in Hout2. cbn [start stdout] in Hout2.
  destruct bad2 as [|b bad2].
  - unfold bind, ret, print. cbn [stdout]. rewrite Hout2. reflexivity.
  - unfold bind at 1. unfold bind at 1. unfold print at 1.
    destruct (report_prints exp (b :: bad2) E
                {| clock := clock s2; stdout := stdout s2 ++ ["DSP LOCK VIOLATION:"] |} Hbad2)
      as [lines [Hrun Hlen]].
    unfold bind at 1. rewrite Hrun. unfold sys_exit, raise. cbn [clock stdout].
    split; [reflexivity|]. exists lines. split.
    + destruct lines; [discriminate Hlen | discriminate].
    + rewrite Hout2. reflexivity.
Qed.

(** X13 for the shipped table, with the first file rewritten between the
    two reads. *)
Lemma dsp_outcomes_witness :
  DspLock.EXP !! "ZPlaneFilter.h" =
    Some "dbfe0b15ba73ab1a44a698e31617fecb0a71cb622dc10c7770994f55e3554f33" /\
  DspLock.EXP !! "EMUAuthenticTables.h" =
    Some "b3bd58a897b16065c12faa3e2b966f0ac9a28581231ece2be599e19d14cf3756" /\
  match DspLock.script_from "/z.h" "/z.h" DspLock.EXP
          {| cwd := "/"; fs_at := rewritten "/z.h" abc []; stdout_wide := true |} (start 0) with
  | (Return _, s) => stdout s = ["DSP lock OK."]
  | (Raise (SystemExit code), s) =>
      code = 2%Z /\
      exists findings, findings <> [] /\ stdout s = "DSP LOCK VIOLATION:" :: findings
  | (Raise (KeyError _), _) => False
  | (Raise _, s) => stdout s = []
  end.
Proof.
  split; [reflexivity|]. split; [reflexivity|].
  apply (dsp_outcomes "/z.h" "/z.h" DspLock.EXP _ _
           {| cwd := "/"; fs_at := rewritten "/z.h" abc []; stdout_wide := true |} 0 eq_refl eq_refl).
Defined.

(** ** The two scripts side by side *)

(** X14.  The same path held against the same expected digest, on a
    filesystem that stays as it is.  A readable file passes one script
    exactly when it passes the other, namely when its digest is the expected
    string.  A path that is not there is recorded by verify-lock.py, which
    goes on, and ends verify_lock.py with [FileNotFoundError].  A path that
    cannot be opened raises [OSError] in both. *)
Theorem scripts_side_by_side (root dir : string) (fs : gmap string node)
    (rel expected name : string) (exp : gmap string string) (s : process) :
  exp !! name = Some expected ->
  let path := os_path.join root [rel] in
  let one := fst (VerifyLock.check root true (rel, expected) (steady dir fs) s) in
  let other := fst (DspLock.check exp [] name path (steady dir fs) s) in
  match fs !! os_path.resolve dir path with
  | Some (File content) =>
      (one = Return true <-> Spec.digest content = expected) /\
      (other = Return [] <-> Spec.digest content = expected) /\
      (one = Return true \/ one = Return false) /\
      (other = Return [] \/ other = Return [(name, Spec.digest content)])
  | Some Unopenable => one = Raise (OSError path) /\ other = Raise (OSError path)
  | None => one = Return false /\ other = Raise (FileNotFoundError path)
  end.
Proof.
  intros Hexp. cbv zeta. rewrite check_anywhere, dsp_check_spec. cbv zeta.
  cbn [steady cwd fs_at]. rewrite Hexp.
  destruct (fs !! os_path.resolve dir (os_path.join root [rel])) as [[content|]|];
    [|split; reflexivity..].
  destruct (String.eqb (Spec.digest content) expected) eqn:Heq; cbn [fst app].
  - apply String.eqb_eq in Heq.
    repeat split; try (intros _; first [exact Heq | reflexivity]); left; reflexivity.
  - apply String.eqb_neq in Heq.
    repeat split; try (intros H; first [discriminate H | contradiction]); right; reflexivity.
Qed.

(** X14 on the file "abc" and its digest. *)
Lemma scripts_side_by_side_witness :
  small_exp !! "ZPlaneFilter.h" =
    Some "ba7816bf8f01cfea414140de5dae2223b00361a396177a9cb410ff61f20015ad" /\
  fst (VerifyLock.check "/r" true
         ("a.h", "ba7816bf8f01cfea414140de5dae2223b00361a396177a9cb410ff61f20015ad")
         (steady "/" small_fs) (start 0)) = Return true /\
  fst (DspLock.check small_exp [] "ZPlaneFilter.h" (os_path.join "/r" ["a.h"])
         (steady "/" small_fs) (start 0)) = Return [].
Proof.
  split; [reflexivity|].
  pose proof (scripts_side_by_side "/r" "/" small_fs "a.h"
                "ba7816bf8f01cfea414140de5dae2223b00361a396177a9cb410ff61f20015ad"
                "ZPlaneFilter.h" small_exp (start 0) eq_refl) as H.
  cbv zeta in H.
  change (small_fs !! os_path.resolve "/" (os_path.join "/r" ["a.h"]))
    with (Some (File abc)) in H.
  destruct H as [[_ H1] [[_ H2] _]].
  split; [apply H1 | apply H2]; vm_compute; reflexivity.
Defined.

(** ** Any encoding of stdout *)

(** The failure banner is the one line that depends on the encoding of
    stdout.  What was shown above with a UTF-8 stdout holds with any: two
    runs on a filesystem that stays as it is agree, and the exit status is a
    function of the set of entries. *)
Lemma rerun_on_any_stdout (wide : bool) (root : string) (hashes : list (string * string))
    (dir : string) (fs : gmap string node) (t1 t2 : nat) :
  let first := run (VerifyLock.script_from root hashes) (on_stdout wide (steady dir fs)) t1 in
  let second := run (VerifyLock.script_from root hashes) (on_stdout wide (steady dir fs)) t2 in
  printed first = printed second /\ status first = status second.
Proof.
  cbv zeta. rewrite !run_steady_on. cbv zeta.
  destruct (List.find (faulty dir root fs) hashes); split; reflexivity.
Qed.

Lemma status_on_any_stdout (wide : bool) (root dir : string) (fs : gmap string node)
    (hashes : list (string * string)) (t0 : nat) :
  status (run (VerifyLock.script_from root hashes) (on_stdout wide (steady dir fs)) t0) =
  if existsb (faulty dir root fs) hashes then 1%Z
  else closing_status wide
         (forallb (fun item => Spec.is_ok (entry_verdict dir root fs item)) hashes).
Proof.
  rewrite run_steady_on. cbv zeta.
  destruct (List.find (faulty dir root fs) hashes) as [item|] eqn:Hfind.
  - destruct (existsb (faulty dir root fs) hashes) eqn:Hex; [reflexivity|].
    apply find_none_existsb in Hex. congruence.
  - apply find_none_existsb in Hfind. rewrite Hfind. reflexivity.
Qed.

Lemma status_ignores_order_on_any_stdout (wide : bool) (root dir : string)
    (fs : gmap string node) (hashes hashes' : list (string * string)) (t0 : nat) :
  Permutation hashes hashes' ->
  status (run (VerifyLock.script_from root hashes) (on_stdout wide (steady dir fs)) t0) =
  status (run (VerifyLock.script_from root hashes') (on_stdout wide (steady dir fs)) t0).
Proof.
  intros Hperm. rewrite !status_on_any_stdout.
  rewrite (existsb_permutation _ _ _ Hperm), (forallb_permutation _ _ _ Hperm).
  reflexivity.
Qed.
